(** * TrendMonster signal generator: a shallow embedding of
      [trendmonster_signal.py] and the properties of its specification.

    Python's [float] is IEEE-754 binary64.  It is modelled by the Standard
    Library's [spec_float] at precision 53 and maximal exponent 1024, with
    the round-to-nearest-even operations of [SpecFloat]; nothing is
    abstracted to real numbers, so every rounding the program performs is
    performed by the model too. *)

From Stdlib Require Import ZArith QArith Qabs Qpower Bool List String Ascii Lia Lqa.
From Stdlib Require Import SpecFloat DecimalString.
Import ListNotations.

Local Open Scope string_scope.
Local Open Scope Z_scope.

(** ** Python floats *)

Module Binary64.

Definition prec : Z := 53.
Definition emax : Z := 1024.

Definition float : Type := spec_float.

Definition add : float -> float -> float := SFadd prec emax.
Definition sub : float -> float -> float := SFsub prec emax.
Definition mul : float -> float -> float := SFmul prec emax.
Definition div : float -> float -> float := SFdiv prec emax.
Definition abs : float -> float := SFabs.

(** [a < b], [a <= b], [a == b]; Python's [a > b] is [ltb b a] and
    [a >= b] is [leb b a].  Every comparison with a NaN is [false]. *)
Definition ltb : float -> float -> bool := SFltb.
Definition leb : float -> float -> bool := SFleb.
Definition eqb : float -> float -> bool := SFeqb.

Definition of_Z (n : Z) : float := binary_normalize prec emax n 0 false.

(** The float denoted by the decimal literal [n * 10^-k]: Python reads a
    literal as the binary64 value nearest to it (ties to even), which is the
    correctly rounded quotient of the two exactly representable integers. *)
Definition dec (n : Z) (k : nat) : float := div (of_Z n) (of_Z (10 ^ Z.of_nat k)).

Definition is_finite (x : float) : bool :=
  match x with
  | S754_zero _ | S754_finite _ _ _ => true
  | S754_infinity _ | S754_nan => false
  end.

Definition is_nan (x : float) : bool :=
  match x with S754_nan => true | _ => false end.

Definition valid (x : float) : bool := valid_binary prec emax x.

(** A [wf] float is one a Python program can hold and that is finite. *)
Definition wf (x : float) : Prop := valid x = true /\ is_finite x = true.

(** The exact value of a finite float, as a rational. *)
Definition F2Q (x : float) : Q :=
  match x with
  | S754_finite s m e => inject_Z (cond_Zopp s (Zpos m)) * (2 ^ e)%Q
  | _ => 0%Q
  end.

(** The same value scaled by [2^1074], an integer for every valid float. *)
Definition F2Z (x : float) : Z :=
  match x with
  | S754_finite s m e => cond_Zopp s (Zpos m * 2 ^ (e + 1074))
  | _ => 0
  end.

End Binary64.

Import Binary64.

(** ** Strategy parameters *)

Module StrategyParams.

Definition SMA_WEEKS : Z := 50.

(** VIX ratio thresholds: the literals [0.80], [0.90], [0.95], [1.05]. *)
Definition VIX_VERY_LOW : float := dec 80 2.
Definition VIX_LOW : float := dec 90 2.
Definition VIX_MODERATE : float := dec 95 2.
Definition VIX_ELEVATED : float := dec 105 2.

End StrategyParams.

(** ** Enumerations *)

Inductive Trend : Type := UPTREND | DOWNTREND.

Inductive Posture : Type := CASH | AGGRESSIVE | BALANCED | DEFENSIVE.

Inductive VIXLevel : Type := VERY_LOW | LOW | MODERATE | ELEVATED | HIGH.

Definition Trend_value (t : Trend) : string :=
  match t with UPTREND => "UPTREND" | DOWNTREND => "DOWNTREND" end.

Definition Posture_value (p : Posture) : string :=
  match p with
  | CASH => "CASH" | AGGRESSIVE => "AGGRESSIVE"
  | BALANCED => "BALANCED" | DEFENSIVE => "DEFENSIVE"
  end.

Definition VIXLevel_value (l : VIXLevel) : string :=
  match l with
  | VERY_LOW => "VERY_LOW" | LOW => "LOW" | MODERATE => "MODERATE"
  | ELEVATED => "ELEVATED" | HIGH => "HIGH"
  end.

(** ** Exceptions and fallible results *)

(** The two exceptions the module can raise.  [ValueError_weights] stands
    for [ValueError(f"Weights must sum to 1.0, got {total}")] and carries the
    offending total itself instead of its printed form. *)
Inductive exn : Type :=
  | ValueError_weights (total : float)
  | ValueError_vix3m
  | ZeroDivisionError.

Inductive result (A : Type) : Type :=
  | Ok (a : A)
  | Raise (e : exn).
Arguments Ok {A} a.
Arguments Raise {A} e.

Definition bind {A B : Type} (r : result A) (k : A -> result B) : result B :=
  match r with Ok a => k a | Raise e => Raise e end.

Notation "x <- r ;; k" := (bind r (fun x => k))
  (at level 61, r at next level, right associativity).

(** Python's [a / b] on floats: a zero divisor of either sign raises. *)
Definition truediv (a b : float) : result float :=
  if eqb b (S754_zero false) then Raise ZeroDivisionError else Ok (div a b).

(** ** Printing floats: [format(x, ".Nf")] and [round(x, N)] *)

(** [round_half_even num den] is the integer nearest to [num / den], ties
    going to the even one ([0 <= num], [0 < den]). *)
Definition round_half_even (num den : Z) : Z :=
  let q := num / den in
  let r := num mod den in
  match (2 * r ?= den) with
  | Lt => q
  | Gt => q + 1
  | Eq => if Z.even q then q else q + 1
  end.

(** [scaled_round m e nd]: the magnitude [m * 2^e] times [10^nd], rounded to
    an integer; the rounding is done on the exact value, as CPython's
    correctly rounded conversion does. *)
Definition scaled_round (m : positive) (e : Z) (nd : nat) : Z :=
  let p10 := 10 ^ Z.of_nat nd in
  if 0 <=? e then Zpos m * 2 ^ e * p10
  else round_half_even (Zpos m * p10) (2 ^ (- e)).

Definition string_of_Z (n : Z) : string :=
  NilZero.string_of_uint (N.to_uint (Z.to_N n)).

(** The last [nd] decimal digits of [n], zero padded on the left. *)
Fixpoint fixed_digits (nd : nat) (n : Z) : string :=
  match nd with
  | O => EmptyString
  | S k =>
      fixed_digits k (n / 10) ++
      String (ascii_of_N (48 + Z.to_N (n mod 10))) EmptyString
  end.

Definition format_fixed (q : Z) (nd : nat) : string :=
  let p10 := 10 ^ Z.of_nat nd in
  match nd with
  | O => string_of_Z q
  | S _ => string_of_Z (q / p10) ++ "." ++ fixed_digits nd (q mod p10)
  end.

(** [f"{x:.Nf}"] *)
Definition format_f (nd : nat) (x : float) : string :=
  match x with
  | S754_nan => "nan"
  | S754_infinity s => if s then "-inf" else "inf"
  | S754_zero s => (if s then "-" else "") ++ format_fixed 0 nd
  | S754_finite s m e =>
      (if s then "-" else "") ++ format_fixed (scaled_round m e nd) nd
  end.

(** [round(x, ndigits)] for a float [x] and [0 <= ndigits]: the decimal
    rounding of the exact value of [x], read back as the nearest float.
    NaN and the infinities round to themselves. *)
Definition py_round (x : float) (nd : nat) : float :=
  match x with
  | S754_finite s m e =>
      match scaled_round m e nd with
      | Zpos q => div (S754_finite s q 0) (of_Z (10 ^ Z.of_nat nd))
      | _ => S754_zero s
      end
  | _ => x
  end.

(** ** Data classes *)

Record Allocation : Type := mkAllocation {
  spy_weight : float;
  tqqq_weight : float;
  cash_weight : float
}.

Definition Allocation_total (a : Allocation) : float :=
  add (add (spy_weight a) (tqqq_weight a)) (cash_weight a).

(** [Allocation.__post_init__]: raises when [abs(total - 1.0) > 0.001]. *)
Definition Allocation_post_init (a : Allocation) : result unit :=
  let total := Allocation_total a in
  if ltb (dec 1 3) (abs (sub total (dec 10 1)))
  then Raise (ValueError_weights total)
  else Ok tt.

(** The call [Allocation(spy_weight=s, tqqq_weight=t, cash_weight=c)]: the
    generated [__init__] stores the three arguments, then runs
    [__post_init__]. *)
Definition Allocation_new (s t c : float) : result Allocation :=
  let a := mkAllocation s t c in
  _ <- Allocation_post_init a ;; Ok a.

Definition as_percentages (a : Allocation) : float * float * float :=
  (mul (spy_weight a) (of_Z 100),
   mul (tqqq_weight a) (of_Z 100),
   mul (cash_weight a) (of_Z 100)).

Definition Allocation_str (a : Allocation) : string :=
  let '(spy, tqqq, cash) := as_percentages a in
  "SPY: " ++ format_f 0 spy ++ "% | TQQQ: " ++ format_f 0 tqqq ++
  "% | Cash: " ++ format_f 0 cash ++ "%".

(** ** Core signal logic *)

Definition determine_trend (spy_close spy_sma : float) : Trend :=
  if ltb spy_sma spy_close then UPTREND else DOWNTREND.

Definition classify_vix_level (vix_ratio : float) : VIXLevel :=
  if ltb vix_ratio StrategyParams.VIX_VERY_LOW then VERY_LOW
  else if ltb vix_ratio StrategyParams.VIX_LOW then LOW
  else if ltb vix_ratio StrategyParams.VIX_MODERATE then MODERATE
  else if ltb vix_ratio StrategyParams.VIX_ELEVATED then ELEVATED
  else HIGH.

Definition determine_posture (trend : Trend) (vix_ratio : float) : Posture :=
  match trend with
  | DOWNTREND => CASH
  | UPTREND =>
      if ltb vix_ratio StrategyParams.VIX_LOW then AGGRESSIVE
      else if ltb StrategyParams.VIX_ELEVATED vix_ratio then DEFENSIVE
      else BALANCED
  end.

Definition calculate_allocation (trend : Trend) (vix_ratio : float)
  : result Allocation :=
  match trend with
  | DOWNTREND => Allocation_new (dec 0 1) (dec 0 1) (dec 10 1)
  | UPTREND =>
      if ltb vix_ratio StrategyParams.VIX_VERY_LOW then
        Allocation_new (dec 30 2) (dec 70 2) (dec 0 1)
      else if ltb vix_ratio StrategyParams.VIX_LOW then
        Allocation_new (dec 50 2) (dec 50 2) (dec 0 1)
      else if ltb vix_ratio StrategyParams.VIX_MODERATE then
        Allocation_new (dec 60 2) (dec 40 2) (dec 0 1)
      else if ltb vix_ratio StrategyParams.VIX_ELEVATED then
        Allocation_new (dec 75 2) (dec 25 2) (dec 0 1)
      else
        Allocation_new (dec 85 2) (dec 15 2) (dec 0 1)
  end.

(** *** Rebalance instructions *)

Definition threshold : float := dec 1 3.

Definition no_rebalance_message : string :=
  "No rebalance required. Current allocation is optimal.".

Definition execute_prefix : string := "Execute at next market open: ".

Definition separator : string := " | ".

(** [f"{abs(change)*100:.1f}"] *)
Definition pct_text (change : float) : string :=
  format_f 1 (mul (abs change) (of_Z 100)).

Definition trade_instruction (ticker : string) (change : float) : string :=
  let action := if ltb (S754_zero false) change then "BUY" else "SELL" in
  action ++ " " ++ pct_text change ++ "% " ++ ticker.

Definition cash_instruction (change : float) : string :=
  if ltb (S754_zero false) change
  then "Move " ++ pct_text change ++ "% to Cash"
  else "Deploy " ++ pct_text change ++ "% from Cash".

Definition generate_rebalance_instructions
    (current_allocation target_allocation : Allocation) : bool * string :=
  let spy_change := sub (spy_weight target_allocation) (spy_weight current_allocation) in
  let tqqq_change := sub (tqqq_weight target_allocation) (tqqq_weight current_allocation) in
  let cash_change := sub (cash_weight target_allocation) (cash_weight current_allocation) in
  if ltb (abs spy_change) threshold &&
     ltb (abs tqqq_change) threshold &&
     ltb (abs cash_change) threshold
  then (false, no_rebalance_message)
  else
    let instructions := @nil string in
    let instructions :=
      if leb threshold (abs spy_change)
      then (instructions ++ [trade_instruction "SPY" spy_change])%list
      else instructions in
    let instructions :=
      if leb threshold (abs tqqq_change)
      then (instructions ++ [trade_instruction "TQQQ" tqqq_change])%list
      else instructions in
    let instructions :=
      if leb threshold (abs cash_change)
      then (instructions ++ [cash_instruction cash_change])%list
      else instructions in
    (true, execute_prefix ++ String.concat separator instructions).

(** The values [Signal.to_dict] builds: a dictionary with string keys is
    kept as the list of its items in insertion order. *)
#[warnings="-register-all"]
Inductive pyvalue : Type :=
  | PyNone
  | PyBool (b : bool)
  | PyFloat (x : float)
  | PyStr (s : string)
  | PyDict (items : list (string * pyvalue)).

Definition dict_keys (v : pyvalue) : list string :=
  match v with
  | PyDict items => map fst items
  | _ => []
  end.

(** [v[k]], [None] standing for a [KeyError] or a non-dictionary. *)
Definition dict_get (v : pyvalue) (k : string) : option pyvalue :=
  match v with
  | PyDict items =>
      option_map snd (find (fun kv => String.eqb (fst kv) k) items)
  | _ => None
  end.

(** ** Market data, signals and the generator

    [datetime] is Python's standard class; the program only stores such
    values and calls [isoformat] on them, so both are kept abstract. *)

Section Generator.

Variable datetime : Type.
Variable isoformat : datetime -> string.

Record MarketData : Type := mkMarketData {
  spy_weekly_close : float;
  spy_50week_sma : float;
  vix_close : float;
  vix3m_close : float;
  weekly_as_of : option datetime;
  daily_as_of : option datetime
}.

(** The property [MarketData.vix_ratio]. *)
Definition MarketData_vix_ratio (d : MarketData) : result float :=
  if eqb (vix3m_close d) (of_Z 0) then Raise ValueError_vix3m
  else truediv (vix_close d) (vix3m_close d).

Record Signal : Type := mkSignal {
  trend : Trend;
  posture : Posture;
  vix_level : VIXLevel;
  allocation : Allocation;
  vix_ratio : float;
  spy_close : float;
  spy_sma : float;
  rebalance_required : bool;
  rebalance_instructions : string;
  signal_generated_at : datetime;
  weekly_data_as_of : option datetime;
  daily_data_as_of : option datetime
}.

Definition isoformat_or_None (d : option datetime) : pyvalue :=
  match d with
  | Some t => PyStr (isoformat t)
  | None => PyNone
  end.

Definition to_dict (self : Signal) : pyvalue :=
  let '(spy_pct, tqqq_pct, cash_pct) := as_percentages (allocation self) in
  PyDict [
    ("trend", PyStr (Trend_value (trend self)));
    ("posture", PyStr (Posture_value (posture self)));
    ("vix_level", PyStr (VIXLevel_value (vix_level self)));
    ("allocation", PyDict [
       ("spy", PyFloat spy_pct);
       ("tqqq", PyFloat tqqq_pct);
       ("cash", PyFloat cash_pct) ]);
    ("indicators", PyDict [
       ("vix_ratio", PyFloat (py_round (vix_ratio self) 4));
       ("spy_close", PyFloat (py_round (spy_close self) 2));
       ("spy_sma", PyFloat (py_round (spy_sma self) 2)) ]);
    ("rebalance_required", PyBool (rebalance_required self));
    ("rebalance_instructions", PyStr (rebalance_instructions self));
    ("timestamps", PyDict [
       ("signal_generated", PyStr (isoformat (signal_generated_at self)));
       ("weekly_data_as_of", isoformat_or_None (weekly_data_as_of self));
       ("daily_data_as_of", isoformat_or_None (daily_data_as_of self)) ])
  ].

(** The state of a [TrendMonsterSignal] object: its [_current_allocation]. *)
Record TrendMonsterSignal : Type := mkGenerator {
  _current_allocation : option Allocation
}.

Definition TrendMonsterSignal_init : TrendMonsterSignal := mkGenerator None.

(** [set_current_allocation] returns the updated object; when the
    constructor raises, the assignment does not happen. *)
Definition set_current_allocation (self : TrendMonsterSignal) (spy tqqq cash : float)
  : result TrendMonsterSignal :=
  a <- Allocation_new spy tqqq cash ;;
  Ok (mkGenerator (Some a)).

Definition set_allocation_placeholder : string :=
  "Set current allocation to enable rebalance instructions.".

(** [generate]; [now] is the value [datetime.now()] returns during the
    call.  The object is only read. *)
Definition generate (self : TrendMonsterSignal) (now : datetime)
    (spy_weekly_close spy_50week_sma vix_close vix3m_close : float)
    (weekly_as_of daily_as_of : option datetime) : result Signal :=
  vix_ratio <- truediv vix_close vix3m_close ;;
  let trend := determine_trend spy_weekly_close spy_50week_sma in
  let vix_level := classify_vix_level vix_ratio in
  let posture := determine_posture trend vix_ratio in
  target_allocation <- calculate_allocation trend vix_ratio ;;
  let '(rebalance_required, instructions) :=
    match _current_allocation self with
    | Some current => generate_rebalance_instructions current target_allocation
    | None => (true, set_allocation_placeholder)
    end in
  Ok (mkSignal trend posture vix_level target_allocation vix_ratio
        spy_weekly_close spy_50week_sma rebalance_required instructions
        now weekly_as_of daily_as_of).

Definition generate_from_data (self : TrendMonsterSignal) (now : datetime)
    (data : MarketData) : result Signal :=
  generate self now (spy_weekly_close data) (spy_50week_sma data)
    (vix_close data) (vix3m_close data) (weekly_as_of data) (daily_as_of data).

Definition get_signal (now : datetime)
    (spy_weekly_close spy_50week_sma vix_close vix3m_close : float)
  : result pyvalue :=
  let generator := TrendMonsterSignal_init in
  signal <- generate generator now spy_weekly_close spy_50week_sma
              vix_close vix3m_close None None ;;
  Ok (to_dict signal).

End Generator.

Arguments mkSignal {datetime}.
Arguments trend {datetime}.
Arguments posture {datetime}.
Arguments vix_level {datetime}.
Arguments allocation {datetime}.
Arguments vix_ratio {datetime}.
Arguments spy_close {datetime}.
Arguments spy_sma {datetime}.
Arguments rebalance_required {datetime}.
Arguments rebalance_instructions {datetime}.
Arguments signal_generated_at {datetime}.
Arguments weekly_data_as_of {datetime}.
Arguments daily_data_as_of {datetime}.
Arguments mkMarketData {datetime}.
Arguments generate {datetime}.
Arguments generate_from_data {datetime}.
Arguments MarketData_vix_ratio {datetime}.
Arguments to_dict {datetime}.
Arguments get_signal {datetime}.

Definition get_allocation_only
    (spy_weekly_close spy_50week_sma vix_close vix3m_close : float)
  : result (float * float * float) :=
  vix_ratio <- truediv vix_close vix3m_close ;;
  let trend := determine_trend spy_weekly_close spy_50week_sma in
  allocation <- calculate_allocation trend vix_ratio ;;
  Ok (as_percentages allocation).

(** * Definitions used to state the properties *)

(** The exact values of the four thresholds, [T1 < T2 < T3 < T4]. *)
Definition T1 : Q := F2Q StrategyParams.VIX_VERY_LOW.
Definition T2 : Q := F2Q StrategyParams.VIX_LOW.
Definition T3 : Q := F2Q StrategyParams.VIX_MODERATE.
Definition T4 : Q := F2Q StrategyParams.VIX_ELEVATED.

(** The band of an exact ratio, as the specification words it. *)
Inductive in_band (r : Q) : VIXLevel -> Prop :=
  | band_very_low : (r < T1)%Q -> in_band r VERY_LOW
  | band_low : (T1 <= r)%Q -> (r < T2)%Q -> in_band r LOW
  | band_moderate : (T2 <= r)%Q -> (r < T3)%Q -> in_band r MODERATE
  | band_elevated : (T3 <= r)%Q -> (r < T4)%Q -> in_band r ELEVATED
  | band_high : (T4 <= r)%Q -> in_band r HIGH.

(** The weights of a row, written as the float literals of the table. *)
Definition row (spy tqqq cash : Z) : Allocation :=
  mkAllocation (dec spy 2) (dec tqqq 2) (dec cash 2).

(** A valid allocation, in the words of the data model: three non-negative
    weights whose sum passes the constructor's check. *)
Definition valid_allocation (a : Allocation) : Prop :=
  leb (S754_zero false) (spy_weight a) = true /\
  leb (S754_zero false) (tqqq_weight a) = true /\
  leb (S754_zero false) (cash_weight a) = true /\
  Allocation_post_init a = Ok tt.

Definition finite_allocation (a : Allocation) : Prop :=
  is_finite (spy_weight a) = true /\
  is_finite (tqqq_weight a) = true /\
  is_finite (cash_weight a) = true.

(** The three deltas [target - current], as the program computes them. *)
Definition spy_change (current target : Allocation) : float :=
  sub (spy_weight target) (spy_weight current).
Definition tqqq_change (current target : Allocation) : float :=
  sub (tqqq_weight target) (tqqq_weight current).
Definition cash_change (current target : Allocation) : float :=
  sub (cash_weight target) (cash_weight current).

(** [abs(change) < threshold] and [abs(change) >= threshold]. *)
Definition immaterial (change : float) : bool := ltb (abs change) threshold.
Definition material (change : float) : bool := leb threshold (abs change).

Inductive instrument : Type := SPY | TQQQ | Cash.

(** The instruction for one instrument, as the specification words it: for
    a tradeable instrument BUY on a positive delta and SELL on a negative
    one; for cash, a move to cash on a positive delta and a deployment from
    cash on a negative one.  A delta that is neither gets no instruction. *)
Definition instruction_for (i : instrument) (change : float) : option string :=
  let positive := ltb (S754_zero false) change in
  let negative := ltb change (S754_zero false) in
  match i with
  | SPY =>
      if positive then Some ("BUY " ++ pct_text change ++ "% SPY")
      else if negative then Some ("SELL " ++ pct_text change ++ "% SPY")
      else None
  | TQQQ =>
      if positive then Some ("BUY " ++ pct_text change ++ "% TQQQ")
      else if negative then Some ("SELL " ++ pct_text change ++ "% TQQQ")
      else None
  | Cash =>
      if positive then Some ("Move " ++ pct_text change ++ "% to Cash")
      else if negative then Some ("Deploy " ++ pct_text change ++ "% from Cash")
      else None
  end.

(** One instruction per material delta, in the order the deltas are
    listed. *)
Fixpoint instructions_for (deltas : list (instrument * float)) : list string :=
  match deltas with
  | [] => []
  | (i, change) :: rest =>
      if material change then
        match instruction_for i change with
        | Some text => text :: instructions_for rest
        | None => instructions_for rest
        end
      else instructions_for rest
  end.

(** Rounding never changes the sign and never produces a NaN. *)
Definition signed_like (s : bool) (x : float) : Prop :=
  match x with
  | S754_zero s' | S754_infinity s' | S754_finite s' _ _ => s' = s
  | S754_nan => False
  end.

(** The magnitude of a finite float, scaled by [2^1074]. *)
Definition mag (m : positive) (e : Z) : Z := Zpos m * 2 ^ (e + 1074).

(** The allocation the table gives to a volatility level in an uptrend. *)
Definition level_row (l : VIXLevel) : Allocation :=
  match l with
  | VERY_LOW => row 30 70 0
  | LOW => row 50 50 0
  | MODERATE => row 60 40 0
  | ELEVATED => row 75 25 0
  | HIGH => row 85 15 0
  end.

(** The position of a level in the order VERY_LOW < ... < HIGH. *)
Definition level_rank (l : VIXLevel) : nat :=
  match l with
  | VERY_LOW => 0 | LOW => 1 | MODERATE => 2 | ELEVATED => 3 | HIGH => 4
  end%nat.

(** The six triples [as_percentages] can return for a tabled allocation. *)
Definition whole_percentages : list (float * float * float) :=
  [(of_Z 0, of_Z 0, of_Z 100); (of_Z 30, of_Z 70, of_Z 0);
   (of_Z 50, of_Z 50, of_Z 0); (of_Z 60, of_Z 40, of_Z 0);
   (of_Z 75, of_Z 25, of_Z 0); (of_Z 85, of_Z 15, of_Z 0)].

(** The instruction with the opposite verb: what [instruction_for] gives
    for the delta of the reverse move. *)
Definition opposite_instruction_for (i : instrument) (change : float)
  : option string :=
  let positive := ltb (S754_zero false) change in
  let negative := ltb change (S754_zero false) in
  match i with
  | SPY =>
      if positive then Some ("SELL " ++ pct_text change ++ "% SPY")
      else if negative then Some ("BUY " ++ pct_text change ++ "% SPY")
      else None
  | TQQQ =>
      if positive then Some ("SELL " ++ pct_text change ++ "% TQQQ")
      else if negative then Some ("BUY " ++ pct_text change ++ "% TQQQ")
      else None
  | Cash =>
      if positive then Some ("Deploy " ++ pct_text change ++ "% from Cash")
      else if negative then Some ("Move " ++ pct_text change ++ "% to Cash")
      else None
  end.

Fixpoint opposite_instructions_for (deltas : list (instrument * float))
  : list string :=
  match deltas with
  | [] => []
  | (i, change) :: rest =>
      if material change then
        match opposite_instruction_for i change with
        | Some text => text :: opposite_instructions_for rest
        | None => opposite_instructions_for rest
        end
      else opposite_instructions_for rest
  end.

(** * Facts about binary64 values *)

Module Binary64Facts.

Lemma digits2_pos_bounds (m : positive) :
  2 ^ (Zpos (digits2_pos m) - 1) <= Zpos m < 2 ^ Zpos (digits2_pos m).
Proof.
  induction m as [p IH | p IH | ]; cbn [digits2_pos].
  - rewrite Pos2Z.inj_succ.
    replace (Z.succ (Zpos (digits2_pos p)) - 1) with (Z.succ (Zpos (digits2_pos p) - 1)) by lia.
    rewrite !Z.pow_succ_r by lia. lia.
  - rewrite Pos2Z.inj_succ.
    replace (Z.succ (Zpos (digits2_pos p)) - 1) with (Z.succ (Zpos (digits2_pos p) - 1)) by lia.
    rewrite !Z.pow_succ_r by lia. lia.
  - cbn. lia.
Qed.

(** What validity says of a finite float: the exponent is in range, the
    mantissa has at most 53 bits, and exactly 53 above the least exponent. *)
Lemma valid_finite_inv (s : bool) (m : positive) (e : Z) :
  valid (S754_finite s m e) = true ->
  -1074 <= e <= 971 /\ Zpos m < 2 ^ 53 /\ (e = -1074 \/ 2 ^ 52 <= Zpos m).
Proof.
  unfold valid, valid_binary, bounded, canonical_mantissa, fexp, emin, prec, emax.
  rewrite andb_true_iff, Z.eqb_eq, Z.leb_le.
  intros [Hc He].
  pose proof (digits2_pos_bounds m) as [Hlo Hhi].
  set (d := Zpos (digits2_pos m)) in *.
  assert (Hd : d <= 53) by lia.
  repeat split; try lia.
  - apply Z.lt_le_trans with (1 := Hhi). apply Z.pow_le_mono_r; lia.
  - destruct (Z.eq_dec e (-1074)) as [-> | Hne]; [now left | right].
    assert (d = 53) as Hd53 by lia.
    rewrite Hd53 in Hlo. exact Hlo.
Qed.

Lemma mag_pos (m : positive) (e : Z) : -1074 <= e -> 0 < mag m e.
Proof.
  intros He. unfold mag. apply Z.mul_pos_pos; [lia |].
  apply Z.pow_pos_nonneg; lia.
Qed.

Lemma mag_lt_exp (s1 s2 : bool) (m1 m2 : positive) (e1 e2 : Z) :
  valid (S754_finite s1 m1 e1) = true ->
  valid (S754_finite s2 m2 e2) = true ->
  e1 < e2 -> mag m1 e1 < mag m2 e2.
Proof.
  intros H1 H2 Hlt.
  apply valid_finite_inv in H1 as (He1 & Hm1 & _).
  apply valid_finite_inv in H2 as (He2 & _ & [Heq | Hm2]); [lia |].
  unfold mag.
  replace (e2 + 1074) with ((e1 + 1074) + 1 + (e2 - e1 - 1)) by lia.
  rewrite (Z.pow_add_r 2 (e1 + 1074 + 1) (e2 - e1 - 1)) by lia.
  rewrite (Z.pow_add_r 2 (e1 + 1074) 1) by lia.
  assert (Hp : 0 < 2 ^ (e1 + 1074)) by (apply Z.pow_pos_nonneg; lia).
  assert (Hq : 1 <= 2 ^ (e2 - e1 - 1)).
  { change 1 with (2 ^ 0). apply Z.pow_le_mono_r; lia. }
  change (2 ^ 53) with (2 * 2 ^ 52) in Hm1.
  change (2 ^ 1) with 2.
  set (P := 2 ^ (e1 + 1074)) in *. set (R := 2 ^ (e2 - e1 - 1)) in *.
  set (B := 2 ^ 52) in *. clearbody P R B.
  assert (Zpos m1 * P < 2 * B * P) by (apply Z.mul_lt_mono_pos_r; lia).
  assert (2 * B * P <= Zpos m2 * (P * 2)).
  { rewrite Z.mul_assoc, (Z.mul_comm (Zpos m2 * P)), Z.mul_assoc.
    apply Z.mul_le_mono_nonneg_r; lia. }
  assert (Zpos m2 * (P * 2) * 1 <= Zpos m2 * (P * 2) * R).
  { apply Z.mul_le_mono_nonneg_l; [| exact Hq].
    apply Z.mul_nonneg_nonneg; lia. }
  lia.
Qed.

Lemma mag_compare (s1 s2 : bool) (m1 m2 : positive) (e1 e2 : Z) :
  valid (S754_finite s1 m1 e1) = true ->
  valid (S754_finite s2 m2 e2) = true ->
  (mag m1 e1 ?= mag m2 e2) =
  match e1 ?= e2 with
  | Lt => Lt
  | Gt => Gt
  | Eq => Pos.compare_cont Eq m1 m2
  end.
Proof.
  intros H1 H2.
  destruct (Z.compare_spec e1 e2) as [Heq | Hlt | Hgt].
  - subst e2. unfold mag.
    apply valid_finite_inv in H1 as (He1 & _).
    assert (Hp : 0 < 2 ^ (e1 + 1074)) by (apply Z.pow_pos_nonneg; lia).
    change (Pos.compare_cont Eq m1 m2) with (Zpos m1 ?= Zpos m2).
    destruct (Z.compare_spec (Zpos m1) (Zpos m2)) as [E | L | G].
    + rewrite E. apply Z.compare_refl.
    + apply Z.compare_lt_iff. apply Z.mul_lt_mono_pos_r; assumption.
    + apply Z.compare_gt_iff. apply Z.mul_lt_mono_pos_r; assumption.
  - apply Z.compare_lt_iff. eapply mag_lt_exp; eauto.
  - apply Z.compare_gt_iff. eapply mag_lt_exp; eauto.
Qed.

Lemma F2Z_finite (s : bool) (m : positive) (e : Z) :
  F2Z (S754_finite s m e) = cond_Zopp s (mag m e).
Proof. reflexivity. Qed.

(** Python's comparison of two finite floats is the comparison of their
    exact values. *)
Theorem SFcompare_F2Z (a b : float) :
  wf a -> wf b -> SFcompare a b = Some (F2Z a ?= F2Z b).
Proof.
  intros [Va Fa] [Vb Fb].
  destruct a as [sa | sa | | sa ma ea]; try discriminate Fa;
  destruct b as [sb | sb | | sb mb eb]; try discriminate Fb.
  - reflexivity.
  - pose proof (valid_finite_inv _ _ _ Vb) as (Hb & _).
    pose proof (mag_pos mb eb ltac:(lia)) as Hp.
    rewrite F2Z_finite. cbn [SFcompare F2Z]. f_equal.
    destruct sb; cbn [cond_Zopp]; symmetry;
      [apply Z.compare_gt_iff | apply Z.compare_lt_iff]; lia.
  - pose proof (valid_finite_inv _ _ _ Va) as (Ha & _).
    pose proof (mag_pos ma ea ltac:(lia)) as Hp.
    rewrite F2Z_finite. cbn [SFcompare F2Z]. f_equal.
    destruct sa; cbn [cond_Zopp]; symmetry;
      [apply Z.compare_lt_iff | apply Z.compare_gt_iff]; lia.
  - pose proof (valid_finite_inv _ _ _ Va) as (Ha & _).
    pose proof (valid_finite_inv _ _ _ Vb) as (Hb & _).
    pose proof (mag_pos ma ea ltac:(lia)) as Hpa.
    pose proof (mag_pos mb eb ltac:(lia)) as Hpb.
    rewrite !F2Z_finite. cbn [SFcompare]. f_equal.
    destruct sa, sb; cbn [cond_Zopp].
    + rewrite Z.compare_opp, (Z.compare_antisym (mag ma ea) (mag mb eb)).
      rewrite (mag_compare true true ma mb ea eb Va Vb).
      destruct (ea ?= eb); reflexivity.
    + symmetry. apply Z.compare_lt_iff. lia.
    + symmetry. apply Z.compare_gt_iff. lia.
    + rewrite (mag_compare false false ma mb ea eb Va Vb).
      destruct (ea ?= eb); reflexivity.
Qed.

Lemma pow2_scaled (e : Z) :
  -1074 <= e ->
  ((2 ^ e) * inject_Z (2 ^ 1074) == inject_Z (2 ^ (e + 1074)))%Q.
Proof.
  intros He.
  rewrite (Zpower_Qpower 2 (e + 1074)) by lia.
  rewrite (Zpower_Qpower 2 1074) by lia.
  rewrite Qpower_plus by discriminate.
  reflexivity.
Qed.

Lemma scale_pos : (0 < inject_Z (2 ^ 1074))%Q.
Proof.
  rewrite <- (Zlt_Qlt 0). apply Z.pow_pos_nonneg; lia.
Qed.

(** [F2Z] is [F2Q] scaled by [2^1074]. *)
Lemma F2Q_scaled (a : float) :
  wf a -> (F2Q a * inject_Z (2 ^ 1074) == inject_Z (F2Z a))%Q.
Proof.
  intros [Va Fa].
  destruct a as [sa | sa | | sa ma ea]; try discriminate Fa.
  - cbn [F2Q F2Z]. apply Qmult_0_l.
  - apply valid_finite_inv in Va as (He & _).
    cbn [F2Q F2Z].
    rewrite <- Qmult_assoc, pow2_scaled by lia.
    rewrite <- inject_Z_mult.
    destruct sa; cbn [cond_Zopp].
    + rewrite Z.mul_opp_l. reflexivity.
    + reflexivity.
Qed.

Lemma F2Q_lt_F2Z (a b : float) :
  wf a -> wf b -> (F2Q a < F2Q b)%Q <-> F2Z a < F2Z b.
Proof.
  intros Ha Hb.
  rewrite <- (Qmult_lt_r _ _ _ scale_pos).
  rewrite (F2Q_scaled a Ha), (F2Q_scaled b Hb).
  rewrite <- Zlt_Qlt. reflexivity.
Qed.

Lemma F2Q_le_F2Z (a b : float) :
  wf a -> wf b -> (F2Q a <= F2Q b)%Q <-> F2Z a <= F2Z b.
Proof.
  intros Ha Hb.
  rewrite <- (Qmult_le_r _ _ _ scale_pos).
  rewrite (F2Q_scaled a Ha), (F2Q_scaled b Hb).
  rewrite <- Zle_Qle. reflexivity.
Qed.

(** [a < b] in Python is [<] on the exact values. *)
Theorem ltb_F2Q (a b : float) :
  wf a -> wf b -> ltb a b = true <-> (F2Q a < F2Q b)%Q.
Proof.
  intros Ha Hb. rewrite (F2Q_lt_F2Z a b Ha Hb).
  unfold ltb, SFltb. rewrite (SFcompare_F2Z a b Ha Hb).
  destruct (Z.compare_spec (F2Z a) (F2Z b)); split; intros;
    try lia; try discriminate; reflexivity.
Qed.

(** [a <= b] in Python is [<=] on the exact values. *)
Theorem leb_F2Q (a b : float) :
  wf a -> wf b -> leb a b = true <-> (F2Q a <= F2Q b)%Q.
Proof.
  intros Ha Hb. rewrite (F2Q_le_F2Z a b Ha Hb).
  unfold leb, SFleb. rewrite (SFcompare_F2Z a b Ha Hb).
  destruct (Z.compare_spec (F2Z a) (F2Z b)); split; intros; try lia; try discriminate;
    reflexivity.
Qed.

Lemma ltb_false_F2Q (a b : float) :
  wf a -> wf b -> ltb a b = false <-> (F2Q b <= F2Q a)%Q.
Proof.
  intros Ha Hb. rewrite <- not_true_iff_false, (ltb_F2Q a b Ha Hb).
  split; [apply Qnot_lt_le | apply Qle_not_lt].
Qed.

End Binary64Facts.

Import Binary64Facts.

(** * The literals of the program *)

Section Literals.

Import StrategyParams.

(** The four thresholds, bit for bit (Python's [float.hex] gives
    [0x1.999999999999ap-1], [0x1.ccccccccccccdp-1], [0x1.e666666666666p-1]
    and [0x1.0cccccccccccdp+0]). *)
Example VIX_VERY_LOW_bits : VIX_VERY_LOW = S754_finite false 0x1999999999999a (-53).
Proof. reflexivity. Qed.

Example VIX_LOW_bits : VIX_LOW = S754_finite false 0x1ccccccccccccd (-53).
Proof. reflexivity. Qed.

Example VIX_MODERATE_bits : VIX_MODERATE = S754_finite false 0x1e666666666666 (-53).
Proof. reflexivity. Qed.

Example VIX_ELEVATED_bits : VIX_ELEVATED = S754_finite false 0x10cccccccccccd (-52).
Proof. reflexivity. Qed.

Example threshold_bits : threshold = S754_finite false 0x10624dd2f1a9fc (-62).
Proof. reflexivity. Qed.

Lemma wf_VIX_VERY_LOW : wf VIX_VERY_LOW.
Proof. split; reflexivity. Qed.

Lemma wf_VIX_LOW : wf VIX_LOW.
Proof. split; reflexivity. Qed.

Lemma wf_VIX_MODERATE : wf VIX_MODERATE.
Proof. split; reflexivity. Qed.

Lemma wf_VIX_ELEVATED : wf VIX_ELEVATED.
Proof. split; reflexivity. Qed.

(** Their exact values. *)
Lemma thresholds_values :
  (T1 == 0x1999999999999a # 2 ^ 53)%Q /\ (T2 == 0x1ccccccccccccd # 2 ^ 53)%Q /\
  (T3 == 0x1e666666666666 # 2 ^ 53)%Q /\ (T4 == 0x10cccccccccccd # 2 ^ 52)%Q.
Proof. repeat split. Qed.

(** Each is the float nearest to the decimal written in the source, half a
    unit in the last place away at most. *)
Lemma thresholds_near_decimals :
  (Qabs (T1 - (80 # 100)) <= 1 # 2 ^ 54)%Q /\
  (Qabs (T2 - (90 # 100)) <= 1 # 2 ^ 54)%Q /\
  (Qabs (T3 - (95 # 100)) <= 1 # 2 ^ 54)%Q /\
  (Qabs (T4 - (105 # 100)) <= 1 # 2 ^ 53)%Q.
Proof. repeat split; vm_compute; discriminate. Qed.

(** The thresholds are strictly ascending. *)
Lemma thresholds_ascending : (T1 < T2)%Q /\ (T2 < T3)%Q /\ (T3 < T4)%Q.
Proof.
  unfold T1, T2, T3, T4.
  split; [| split].
  - apply (ltb_F2Q _ _ wf_VIX_VERY_LOW wf_VIX_LOW). reflexivity.
  - apply (ltb_F2Q _ _ wf_VIX_LOW wf_VIX_MODERATE). reflexivity.
  - apply (ltb_F2Q _ _ wf_VIX_MODERATE wf_VIX_ELEVATED). reflexivity.
Qed.

End Literals.

Create HintDb wf.
#[local] Hint Resolve wf_VIX_VERY_LOW wf_VIX_LOW wf_VIX_MODERATE wf_VIX_ELEVATED : wf.

(** Turn every float comparison in the context into a comparison of exact
    values. *)
Ltac float_order :=
  repeat match goal with
  | H : ltb ?a ?b = true |- _ =>
      apply (proj1 (ltb_F2Q a b ltac:(auto with wf) ltac:(auto with wf))) in H
  | H : ltb ?a ?b = false |- _ =>
      apply (proj1 (ltb_false_F2Q a b ltac:(auto with wf) ltac:(auto with wf))) in H
  end;
  fold T1 T2 T3 T4 in *.

(** * The trend filter *)

(** C2.  For finite inputs the trend is UPTREND exactly when the price is
    strictly above the reference, and DOWNTREND exactly when it is equal to
    or below it.  [determine_trend] is a total function: there is no input
    on which it raises. *)
Theorem determine_trend_strict (price reference : float) :
  wf price -> wf reference ->
  (determine_trend price reference = UPTREND <-> (F2Q reference < F2Q price)%Q) /\
  (determine_trend price reference = DOWNTREND <-> (F2Q price <= F2Q reference)%Q).
Proof.
  intros Hp Hr. unfold determine_trend.
  destruct (ltb reference price) eqn:E.
  - apply (ltb_F2Q _ _ Hr Hp) in E.
    split; split; intros; try reflexivity; try discriminate; try assumption.
    exfalso. lra.
  - apply (ltb_false_F2Q _ _ Hr Hp) in E.
    split; split; intros; try reflexivity; try discriminate; try assumption.
    exfalso. lra.
Qed.

Lemma determine_trend_strict_witness :
  wf (dec 59500 2) /\ wf (dec 54000 2) /\
  (determine_trend (dec 59500 2) (dec 54000 2) = UPTREND <->
   (F2Q (dec 54000 2) < F2Q (dec 59500 2))%Q).
Proof.
  assert (Hp : wf (dec 59500 2)) by (split; reflexivity).
  assert (Hr : wf (dec 54000 2)) by (split; reflexivity).
  split; [exact Hp | split; [exact Hr |]].
  exact (proj1 (determine_trend_strict (dec 59500 2) (dec 54000 2) Hp Hr)).
Defined.

(** Equal price and reference: DOWNTREND. *)
Lemma determine_trend_equal (x : float) : determine_trend x x = DOWNTREND.
Proof.
  unfold determine_trend, ltb, SFltb.
  destruct x as [[] | [] | | [] m e]; cbn; try reflexivity;
    rewrite Z.compare_refl, Pos.compare_cont_refl; reflexivity.
Qed.

(** * The volatility classifier *)

Section Bands.

Import StrategyParams.

Lemma in_band_unique (r : Q) (l1 l2 : VIXLevel) :
  in_band r l1 -> in_band r l2 -> l1 = l2.
Proof.
  pose proof thresholds_ascending as (H12 & H23 & H34).
  intros B1 B2; destruct B1, B2; try reflexivity; exfalso; lra.
Qed.

Lemma classify_vix_level_in_band (ratio : float) :
  wf ratio -> in_band (F2Q ratio) (classify_vix_level ratio).
Proof.
  intros Hr.
  pose proof thresholds_ascending as (H12 & H23 & H34).
  unfold classify_vix_level.
  destruct (ltb ratio VIX_VERY_LOW) eqn:E1; [float_order; constructor; assumption |].
  destruct (ltb ratio VIX_LOW) eqn:E2; [float_order; constructor; assumption |].
  destruct (ltb ratio VIX_MODERATE) eqn:E3; [float_order; constructor; assumption |].
  destruct (ltb ratio VIX_ELEVATED) eqn:E4; float_order; constructor; assumption.
Qed.

(** C3.  The classifier cuts the line into five contiguous bands, each
    closed on the left and open on the right, at the thresholds
    [T1 < T2 < T3 < T4] (the floats [0.80], [0.90], [0.95], [1.05]); every
    finite ratio falls in exactly one band and gets that band's level, and a
    ratio equal to a threshold gets the band that starts there. *)
Theorem classify_vix_level_partition (ratio : float) :
  wf ratio ->
  let r := F2Q ratio in
  ((T1 < T2)%Q /\ (T2 < T3)%Q /\ (T3 < T4)%Q) /\
  (classify_vix_level ratio = VERY_LOW <-> (r < T1)%Q) /\
  (classify_vix_level ratio = LOW <-> (T1 <= r)%Q /\ (r < T2)%Q) /\
  (classify_vix_level ratio = MODERATE <-> (T2 <= r)%Q /\ (r < T3)%Q) /\
  (classify_vix_level ratio = ELEVATED <-> (T3 <= r)%Q /\ (r < T4)%Q) /\
  (classify_vix_level ratio = HIGH <-> (T4 <= r)%Q) /\
  classify_vix_level VIX_VERY_LOW = LOW /\
  classify_vix_level VIX_LOW = MODERATE /\
  classify_vix_level VIX_MODERATE = ELEVATED /\
  classify_vix_level VIX_ELEVATED = HIGH.
Proof.
  intros Hr r.
  pose proof (classify_vix_level_in_band ratio Hr) as Hb. fold r in Hb.
  assert (Huniq : forall l, in_band r l -> classify_vix_level ratio = l).
  { intros l Hl. exact (in_band_unique r _ _ Hb Hl). }
  split; [exact thresholds_ascending |].
  repeat match goal with |- _ /\ _ => split end; try reflexivity.
  all: split;
    [intros E; rewrite E in Hb; inversion Hb; first [assumption | split; assumption] |].
  - intros H. apply Huniq. constructor; exact H.
  - intros [H H']. apply Huniq. constructor; assumption.
  - intros [H H']. apply Huniq. constructor; assumption.
  - intros [H H']. apply Huniq. constructor; assumption.
  - intros H. apply Huniq. constructor; exact H.
Qed.

End Bands.

Lemma classify_vix_level_partition_witness :
  wf (dec 8146 4) /\ classify_vix_level (dec 8146 4) = LOW.
Proof.
  assert (Hr : wf (dec 8146 4)) by (split; reflexivity).
  split; [exact Hr |].
  destruct (classify_vix_level_partition (dec 8146 4) Hr) as (_ & _ & HL & _).
  apply (proj2 HL). split.
  - apply (leb_F2Q _ _ wf_VIX_VERY_LOW Hr). reflexivity.
  - apply (ltb_F2Q _ _ Hr wf_VIX_LOW). reflexivity.
Defined.

(** * Posture *)

Section PostureBands.

Import StrategyParams.

(** C4, as the code has it.  A downtrend is CASH whatever the ratio.  In an
    uptrend only [T2] and [T4] are used: AGGRESSIVE strictly below [T2],
    DEFENSIVE strictly above [T4], BALANCED on the closed interval between
    them; so the ratio [0.90] is BALANCED and the ratio [1.05] is BALANCED
    too. *)
Theorem determine_posture_buckets (ratio : float) :
  wf ratio ->
  let r := F2Q ratio in
  determine_posture DOWNTREND ratio = CASH /\
  (determine_posture UPTREND ratio = AGGRESSIVE <-> (r < T2)%Q) /\
  (determine_posture UPTREND ratio = BALANCED <-> (T2 <= r)%Q /\ (r <= T4)%Q) /\
  (determine_posture UPTREND ratio = DEFENSIVE <-> (T4 < r)%Q) /\
  determine_posture UPTREND ratio <> CASH /\
  determine_posture UPTREND VIX_LOW = BALANCED /\
  determine_posture UPTREND VIX_ELEVATED = BALANCED.
Proof.
  intros Hr r.
  pose proof thresholds_ascending as (_ & H23 & H34).
  assert (H24 : (T2 < T4)%Q) by lra.
  clear H23 H34.
  split; [reflexivity |].
  assert (Hcases :
    (determine_posture UPTREND ratio = AGGRESSIVE /\ (r < T2)%Q) \/
    (determine_posture UPTREND ratio = BALANCED /\ (T2 <= r)%Q /\ (r <= T4)%Q) \/
    (determine_posture UPTREND ratio = DEFENSIVE /\ (T4 < r)%Q)).
  { unfold determine_posture.
    destruct (ltb ratio VIX_LOW) eqn:E1;
      [| destruct (ltb VIX_ELEVATED ratio) eqn:E2]; float_order.
    - left. split; [reflexivity | exact E1].
    - right; right. split; [reflexivity | exact E2].
    - right; left. split; [reflexivity | split; assumption]. }
  clearbody r. revert H24 Hcases.
  generalize T2, T4. intros t2 t4 H24 Hcases.
  split; [| split; [| split; [| split; [| split; reflexivity]]]].
  - destruct Hcases as [[E H] | [[E [H H']] | [E H]]]; rewrite E;
      split; intros G; try discriminate G; try reflexivity; try assumption;
      exfalso; lra.
  - destruct Hcases as [[E H] | [[E [H H']] | [E H]]]; rewrite E;
      split; intros G; try discriminate G; try reflexivity;
      try (split; assumption); exfalso; lra.
  - destruct Hcases as [[E H] | [[E [H H']] | [E H]]]; rewrite E;
      split; intros G; try discriminate G; try reflexivity; try assumption;
      exfalso; lra.
  - destruct Hcases as [[E H] | [[E [H H']] | [E H]]]; rewrite E; discriminate.
Qed.

End PostureBands.

Lemma determine_posture_buckets_witness :
  wf (dec 100 2) /\ determine_posture UPTREND (dec 100 2) = BALANCED.
Proof.
  assert (Hr : wf (dec 100 2)) by (split; reflexivity).
  split; [exact Hr |].
  destruct (determine_posture_buckets (dec 100 2) Hr) as (_ & _ & HB & _).
  apply (proj2 HB). split.
  - apply (leb_F2Q _ _ wf_VIX_LOW Hr). reflexivity.
  - apply (leb_F2Q _ _ Hr wf_VIX_ELEVATED). reflexivity.
Defined.

(** C4 as the specification states it fails at the upper boundary: in an
    uptrend the ratio [1.05] is BALANCED, not DEFENSIVE. *)
Lemma determine_posture_upper_boundary :
  determine_posture UPTREND (dec 105 2) = BALANCED /\
  determine_posture UPTREND (dec 105 2) <> DEFENSIVE.
Proof. split; vm_compute; [reflexivity | discriminate]. Qed.

(** * The allocation table *)

Section AllocationTable.

Import StrategyParams.

(** Whatever its arguments, [calculate_allocation] returns an allocation
    whose total, as the constructor computes it, is the float [1.0]: the
    constructor never raises there. *)
Lemma calculate_allocation_returns (trend : Trend) (ratio : float) :
  exists a,
    calculate_allocation trend ratio = Ok a /\
    Allocation_total a = dec 100 2 /\
    Allocation_post_init a = Ok tt.
Proof.
  unfold calculate_allocation.
  destruct trend;
    [destruct (ltb ratio VIX_VERY_LOW); [exists (row 30 70 0) |
     destruct (ltb ratio VIX_LOW); [exists (row 50 50 0) |
     destruct (ltb ratio VIX_MODERATE); [exists (row 60 40 0) |
     destruct (ltb ratio VIX_ELEVATED); [exists (row 75 25 0) | exists (row 85 15 0)]]]]
    | exists (row 0 0 100)];
    (split; [| split]); vm_compute; reflexivity.
Qed.

(** C1.  [calculate_allocation] returns the tabled weights row by row, the
    bands being those of the volatility classifier; the total the
    constructor computes for the returned allocation is exactly [1.0], so
    its check passes and the call never raises. *)
Theorem calculate_allocation_table (ratio : float) :
  wf ratio ->
  let r := F2Q ratio in
  (forall any, calculate_allocation DOWNTREND any = Ok (row 0 0 100)) /\
  ((r < T1)%Q -> calculate_allocation UPTREND ratio = Ok (row 30 70 0)) /\
  ((T1 <= r)%Q /\ (r < T2)%Q -> calculate_allocation UPTREND ratio = Ok (row 50 50 0)) /\
  ((T2 <= r)%Q /\ (r < T3)%Q -> calculate_allocation UPTREND ratio = Ok (row 60 40 0)) /\
  ((T3 <= r)%Q /\ (r < T4)%Q -> calculate_allocation UPTREND ratio = Ok (row 75 25 0)) /\
  ((T4 <= r)%Q -> calculate_allocation UPTREND ratio = Ok (row 85 15 0)) /\
  (forall trend any, exists a,
     calculate_allocation trend any = Ok a /\
     Allocation_total a = dec 100 2 /\
     Allocation_post_init a = Ok tt).
Proof.
  intros Hr r.
  pose proof thresholds_ascending as (H12 & H23 & H34).
  split; [intros any; reflexivity |].
  assert (Hcases :
    (calculate_allocation UPTREND ratio = Ok (row 30 70 0) /\ (r < T1)%Q) \/
    (calculate_allocation UPTREND ratio = Ok (row 50 50 0) /\ (T1 <= r)%Q /\ (r < T2)%Q) \/
    (calculate_allocation UPTREND ratio = Ok (row 60 40 0) /\ (T2 <= r)%Q /\ (r < T3)%Q) \/
    (calculate_allocation UPTREND ratio = Ok (row 75 25 0) /\ (T3 <= r)%Q /\ (r < T4)%Q) \/
    (calculate_allocation UPTREND ratio = Ok (row 85 15 0) /\ (T4 <= r)%Q)).
  { unfold calculate_allocation.
    destruct (ltb ratio VIX_VERY_LOW) eqn:E1;
      [float_order; left; split; [reflexivity | exact E1] |].
    destruct (ltb ratio VIX_LOW) eqn:E2;
      [float_order; right; left; split; [reflexivity | split; assumption] |].
    destruct (ltb ratio VIX_MODERATE) eqn:E3;
      [float_order; right; right; left; split; [reflexivity | split; assumption] |].
    destruct (ltb ratio VIX_ELEVATED) eqn:E4; float_order.
    - right; right; right; left. split; [reflexivity | split; assumption].
    - right; right; right; right. split; [reflexivity | assumption]. }
  clearbody r. revert H12 H23 H34 Hcases.
  generalize T1, T2, T3, T4. intros t1 t2 t3 t4 H12 H23 H34 Hcases.
  split; [| split; [| split; [| split; [| split]]]].
  - intros G.
    destruct Hcases as [[E H] | [[E [H H']] | [[E [H H']] | [[E [H H']] | [E H]]]]];
      first [exfalso; lra | exact E].
  - intros [G G'].
    destruct Hcases as [[E H] | [[E [H H']] | [[E [H H']] | [[E [H H']] | [E H]]]]];
      first [exfalso; lra | exact E].
  - intros [G G'].
    destruct Hcases as [[E H] | [[E [H H']] | [[E [H H']] | [[E [H H']] | [E H]]]]];
      first [exfalso; lra | exact E].
  - intros [G G'].
    destruct Hcases as [[E H] | [[E [H H']] | [[E [H H']] | [[E [H H']] | [E H]]]]];
      first [exfalso; lra | exact E].
  - intros G.
    destruct Hcases as [[E H] | [[E [H H']] | [[E [H H']] | [[E [H H']] | [E H]]]]];
      first [exfalso; lra | exact E].
  - intros trend any. apply calculate_allocation_returns.
Qed.

End AllocationTable.

Lemma calculate_allocation_table_witness :
  wf (dec 8146 4) /\ calculate_allocation UPTREND (dec 8146 4) = Ok (row 50 50 0).
Proof.
  assert (Hr : wf (dec 8146 4)) by (split; reflexivity).
  split; [exact Hr |].
  destruct (calculate_allocation_table (dec 8146 4) Hr) as (_ & _ & HL & _).
  apply HL. split.
  - apply (leb_F2Q _ _ wf_VIX_VERY_LOW Hr). reflexivity.
  - apply (ltb_F2Q _ _ Hr wf_VIX_LOW). reflexivity.
Defined.

(** * Signs and finiteness of computed floats *)

Section RoundingSign.

Lemma iter_pos_invariant {A : Type} (f : A -> A) (P : A -> Prop) :
  (forall x, P x -> P (f x)) ->
  forall (p : positive) (x : A), P x -> P (iter_pos f p x).
Proof.
  intros Hf. induction p as [p IH | p IH | ]; intros x Hx; cbn [iter_pos].
  - apply IH, IH, Hf, Hx.
  - apply IH, IH, Hx.
  - apply Hf, Hx.
Qed.

Lemma shr_1_nonneg (mrs : shr_record) : 0 <= shr_m mrs -> 0 <= shr_m (shr_1 mrs).
Proof.
  destruct mrs as [m r s]. cbn [shr_m shr_1].
  destruct m as [| [p | p |] | p]; cbn [shr_m]; lia.
Qed.

Lemma shr_fexp_nonneg (m e : Z) (l : location) :
  0 <= m -> 0 <= shr_m (fst (shr_fexp prec emax m e l)).
Proof.
  intros Hm. unfold shr_fexp, shr.
  assert (H0 : 0 <= shr_m (shr_record_of_loc m l)).
  { destruct l as [| []]; exact Hm. }
  destruct (fexp prec emax (Zdigits2 m + e) - e) as [| p | p]; cbn [fst];
    try exact H0.
  apply (iter_pos_invariant shr_1 (fun x => 0 <= shr_m x)); [apply shr_1_nonneg | exact H0].
Qed.

Lemma round_nearest_even_nonneg (m : Z) (l : location) :
  0 <= m -> 0 <= round_nearest_even m l.
Proof.
  intros Hm. unfold round_nearest_even.
  destruct l as [| []]; try destruct (Z.even m); lia.
Qed.

Lemma binary_round_aux_sign (sx : bool) (mx ex : Z) (lx : location) :
  0 <= mx -> signed_like sx (binary_round_aux prec emax sx mx ex lx).
Proof.
  intros Hm. unfold binary_round_aux.
  pose proof (shr_fexp_nonneg mx ex lx Hm) as H1.
  destruct (shr_fexp prec emax mx ex lx) as [mrs' e']. cbn [fst] in H1.
  pose proof (shr_fexp_nonneg _ e' loc_Exact
                (round_nearest_even_nonneg _ (loc_of_shr_record mrs') H1)) as H2.
  destruct (shr_fexp prec emax (round_nearest_even (shr_m mrs') (loc_of_shr_record mrs'))
              e' loc_Exact) as [mrs'' e''].
  cbn [fst] in H2.
  destruct (shr_m mrs'') as [| p | p]; cbn [signed_like]; try reflexivity; try lia.
  destruct (e'' <=? emax - prec); reflexivity.
Qed.

Lemma binary_round_sign (sx : bool) (mx : positive) (ex : Z) :
  signed_like sx (binary_round prec emax sx mx ex).
Proof.
  unfold binary_round.
  destruct (shl_align mx ex (fexp prec emax (Z.pos (digits2_pos mx) + ex))) as [mz ez].
  apply binary_round_aux_sign. lia.
Qed.

(** The floats [x] with [0.0 <= x]: zeros, positive finite floats and
    [+inf]. *)
Lemma leb_zero_inv (x : float) :
  leb (S754_zero false) x = true ->
  (exists s, x = S754_zero s) \/ (exists m e, x = S754_finite false m e) \/
  x = S754_infinity false.
Proof.
  destruct x as [s | [] | | [] m e]; cbn; intros H; try discriminate H; eauto.
Qed.

(** The sum of two non-negative floats is non-negative, never a NaN, and
    infinite as soon as one of them is. *)
Lemma add_nonneg (x y : float) :
  leb (S754_zero false) x = true -> leb (S754_zero false) y = true ->
  leb (S754_zero false) (add x y) = true /\
  (is_finite x = false \/ is_finite y = false -> add x y = S754_infinity false).
Proof.
  intros Hx Hy.
  apply leb_zero_inv in Hx as [[sx ->] | [(mx & ex & ->) | ->]];
  apply leb_zero_inv in Hy as [[sy ->] | [(my & ey & ->) | ->]];
  try (split; [reflexivity | intros [H | H]; (discriminate H || reflexivity)]).
  - destruct sx, sy; split; try reflexivity; intros [H | H]; discriminate H.
  - split; [| intros [H | H]; discriminate H].
    unfold add, SFadd. cbn [cond_Zopp].
    set (z := _ + _).
    assert (Hz : 0 < z) by (subst z; lia).
    destruct z as [| p | p]; try lia.
    cbn [binary_normalize].
    pose proof (binary_round_sign false p (Z.min ex ey)) as Hs.
    destruct (binary_round prec emax false p (Z.min ex ey)) as [s | s | | s m e];
      cbn [signed_like] in Hs; try contradiction; subst s; reflexivity.
Qed.

(** Subtracting a finite float from itself gives [+0.0]. *)
Lemma sub_diag (x : float) : is_finite x = true -> sub x x = S754_zero false.
Proof.
  destruct x as [[] | s | | s m e]; intros H; try discriminate H; try reflexivity.
  unfold sub, SFsub.
  rewrite Z.sub_diag. reflexivity.
Qed.

End RoundingSign.

(** * The rebalance diff *)

Section Rebalance.

(** The weights of a valid allocation are finite: an infinite weight makes
    the total infinite, and the constructor rejects it. *)
Lemma valid_allocation_finite (a : Allocation) :
  valid_allocation a -> finite_allocation a.
Proof.
  intros (Hs & Ht & Hc & Hok).
  destruct (add_nonneg _ _ Hs Ht) as [Hst Hinf1].
  destruct (add_nonneg _ _ Hst Hc) as [_ Hinf2].
  assert (Hfin : is_finite (add (spy_weight a) (tqqq_weight a)) = true /\
                 is_finite (cash_weight a) = true).
  { destruct (is_finite (add (spy_weight a) (tqqq_weight a))) eqn:E1,
             (is_finite (cash_weight a)) eqn:E2; try (split; reflexivity); exfalso;
      unfold Allocation_post_init, Allocation_total in Hok;
      rewrite Hinf2 in Hok by tauto; vm_compute in Hok; discriminate Hok. }
  destruct Hfin as [Hfst Hfc].
  destruct (is_finite (spy_weight a)) eqn:E1, (is_finite (tqqq_weight a)) eqn:E2;
    try (repeat split; assumption); exfalso;
    rewrite Hinf1 in Hfst by tauto; discriminate Hfst.
Qed.

Lemma diff_identical (x : Allocation) :
  finite_allocation x ->
  generate_rebalance_instructions x x = (false, no_rebalance_message).
Proof.
  intros (Hs & Ht & Hc). unfold generate_rebalance_instructions.
  rewrite !sub_diag by assumption. reflexivity.
Qed.

(** C5.  For valid allocations the diff reports [required = false] exactly
    when the three deltas are all below [0.001] in absolute value, and the
    instruction is then the fixed no-action message; the diff of a valid
    allocation with itself is such a call. *)
Theorem rebalance_not_required (current target x : Allocation) :
  valid_allocation current -> valid_allocation target -> valid_allocation x ->
  (fst (generate_rebalance_instructions current target) = false <->
     immaterial (spy_change current target) = true /\
     immaterial (tqqq_change current target) = true /\
     immaterial (cash_change current target) = true) /\
  (fst (generate_rebalance_instructions current target) = false ->
     snd (generate_rebalance_instructions current target) = no_rebalance_message) /\
  generate_rebalance_instructions x x = (false, no_rebalance_message).
Proof.
  intros _ _ Hx.
  split; [| split].
  - unfold generate_rebalance_instructions, immaterial, spy_change, tqqq_change, cash_change.
    destruct (ltb (abs (sub (spy_weight target) (spy_weight current))) threshold);
    destruct (ltb (abs (sub (tqqq_weight target) (tqqq_weight current))) threshold);
    destruct (ltb (abs (sub (cash_weight target) (cash_weight current))) threshold);
    cbn [andb fst]; split; intros H; try reflexivity; try discriminate H;
    try (repeat split; reflexivity);
    destruct H as (H1 & H2 & H3); discriminate.
  - unfold generate_rebalance_instructions.
    destruct (ltb (abs (sub (spy_weight target) (spy_weight current))) threshold &&
              ltb (abs (sub (tqqq_weight target) (tqqq_weight current))) threshold &&
              ltb (abs (sub (cash_weight target) (cash_weight current))) threshold);
    cbn [fst snd]; intros H; [reflexivity | discriminate H].
  - apply diff_identical, valid_allocation_finite, Hx.
Qed.

End Rebalance.

Lemma rebalance_not_required_witness :
  valid_allocation (row 50 50 0) /\
  generate_rebalance_instructions (row 50 50 0) (row 50 50 0) =
    (false, no_rebalance_message).
Proof.
  assert (H : valid_allocation (row 50 50 0)) by (repeat split; vm_compute; reflexivity).
  split; [exact H |].
  exact (proj2 (proj2 (rebalance_not_required (row 60 40 0) (row 50 50 0) (row 50 50 0)
                         ltac:(repeat split; vm_compute; reflexivity) H H))).
Defined.

(** Non-negativity is what keeps NaN out of a valid allocation: a NaN weight
    passes the sum check, every comparison with a NaN being false, and the
    diff of such an object with itself is reported as required. *)
Remark nan_allocation :
  let x := mkAllocation S754_nan (dec 0 1) (dec 0 1) in
  Allocation_new S754_nan (dec 0 1) (dec 0 1) = Ok x /\
  ~ valid_allocation x /\
  generate_rebalance_instructions x x = (true, execute_prefix).
Proof.
  split; [| split].
  - vm_compute. reflexivity.
  - intros (H & _). discriminate H.
  - vm_compute. reflexivity.
Qed.

(** * The instructions of a required rebalance *)

Section Instructions.

(** Swapping the arguments of a comparison reverses its outcome. *)
Lemma SFcompare_antisym (a b : float) :
  SFcompare b a = option_map CompOpp (SFcompare a b).
Proof.
  destruct a as [[] | [] | | [] ma ea], b as [[] | [] | | [] mb eb];
    cbn [SFcompare option_map CompOpp]; try reflexivity;
    assert (Hm : Pos.compare_cont Eq mb ma = CompOpp (Pos.compare_cont Eq ma mb))
      by (rewrite (Pos.compare_cont_antisym ma mb Eq); reflexivity);
    rewrite (Z.compare_antisym ea eb), Hm;
    destruct (ea ?= eb); destruct (Pos.compare_cont Eq ma mb); reflexivity.
Qed.

Lemma ltb_not_leb (a b : float) : ltb a b = true -> leb b a = false.
Proof.
  unfold ltb, leb, SFltb, SFleb. rewrite (SFcompare_antisym a b).
  destruct (SFcompare a b) as [[] |]; cbn; intros H; (discriminate H || reflexivity).
Qed.

Lemma immaterial_not_material (change : float) :
  immaterial change = true -> material change = false.
Proof. apply ltb_not_leb. Qed.

Lemma threshold_positive : ltb (S754_zero false) threshold = true.
Proof. vm_compute. reflexivity. Qed.

(** A material delta is strictly positive or strictly negative, never
    both. *)
Lemma material_signed (change : float) :
  material change = true ->
  ltb (S754_zero false) change = negb (ltb change (S754_zero false)).
Proof.
  unfold material. pose proof threshold_positive as Hpos. revert Hpos.
  generalize threshold. intros thr Hpos H.
  destruct change as [s | [] | | [] m e]; try reflexivity; exfalso;
    cbn [abs SFabs] in H;
    destruct thr as [[] | [] | | [] mt et]; cbn in Hpos, H; congruence.
Qed.

Lemma instruction_for_material (i : instrument) (change : float) :
  material change = true ->
  instruction_for i change =
  Some match i with
       | SPY => trade_instruction "SPY" change
       | TQQQ => trade_instruction "TQQQ" change
       | Cash => cash_instruction change
       end.
Proof.
  intros H. apply material_signed in H.
  unfold instruction_for, trade_instruction, cash_instruction.
  rewrite H.
  destruct i; destruct (ltb change (S754_zero false)); reflexivity.
Qed.

(** The program's sequence of tests and appends, one list per instrument. *)
Lemma generate_rebalance_instructions_unfold (current target : Allocation) :
  let ds := spy_change current target in
  let dt := tqqq_change current target in
  let dc := cash_change current target in
  generate_rebalance_instructions current target =
  if immaterial ds && immaterial dt && immaterial dc
  then (false, no_rebalance_message)
  else (true,
        execute_prefix ++
        String.concat separator
          ((if material ds then [trade_instruction "SPY" ds] else []) ++
           (if material dt then [trade_instruction "TQQQ" dt] else []) ++
           (if material dc then [cash_instruction dc] else []))%list).
Proof.
  unfold generate_rebalance_instructions, immaterial, material,
    spy_change, tqqq_change, cash_change.
  generalize threshold. intros thr. cbv zeta.
  destruct (ltb (abs (sub (spy_weight target) (spy_weight current))) thr &&
            ltb (abs (sub (tqqq_weight target) (tqqq_weight current))) thr &&
            ltb (abs (sub (cash_weight target) (cash_weight current))) thr);
    [reflexivity |].
  destruct (leb thr (abs (sub (spy_weight target) (spy_weight current))));
  destruct (leb thr (abs (sub (tqqq_weight target) (tqqq_weight current))));
  destruct (leb thr (abs (sub (cash_weight target) (cash_weight current))));
  reflexivity.
Qed.

(** C6.  When some delta is material the diff is required, and its text is
    the execution notice followed by the instructions of the material
    instruments, joined by the separator, in the order SPY, TQQQ, cash;
    there is one instruction for each material delta. *)
Theorem rebalance_instructions_ordered (current target : Allocation) :
  let ds := spy_change current target in
  let dt := tqqq_change current target in
  let dc := cash_change current target in
  let deltas := [(SPY, ds); (TQQQ, dt); (Cash, dc)] in
  material ds = true \/ material dt = true \/ material dc = true ->
  generate_rebalance_instructions current target =
    (true, execute_prefix ++ String.concat separator (instructions_for deltas)) /\
  List.length (instructions_for deltas) =
    List.length (filter (fun d => material (snd d)) deltas).
Proof.
  intros ds dt dc deltas Hmat.
  assert (Hnot : immaterial ds && immaterial dt && immaterial dc = false).
  { destruct (immaterial ds) eqn:E1, (immaterial dt) eqn:E2, (immaterial dc) eqn:E3;
      try reflexivity.
    apply immaterial_not_material in E1, E2, E3.
    destruct Hmat as [H | [H | H]]; congruence. }
  rewrite generate_rebalance_instructions_unfold.
  fold ds dt dc. rewrite Hnot.
  subst deltas. cbn [instructions_for filter snd].
  clear Hmat Hnot. clearbody ds dt dc.
  destruct (material ds) eqn:Ms; [rewrite (instruction_for_material SPY ds Ms) |];
  (destruct (material dt) eqn:Mt; [rewrite (instruction_for_material TQQQ dt Mt) |]);
  (destruct (material dc) eqn:Mc; [rewrite (instruction_for_material Cash dc Mc) |]);
  split; reflexivity.
Qed.

End Instructions.

Lemma rebalance_instructions_ordered_witness :
  material (spy_change (row 60 40 0) (row 0 0 100)) = true /\
  generate_rebalance_instructions (row 60 40 0) (row 0 0 100) =
    (true,
     "Execute at next market open: SELL 60.0% SPY | SELL 40.0% TQQQ | Move 100.0% to Cash").
Proof.
  assert (H : material (spy_change (row 60 40 0) (row 0 0 100)) = true)
    by (vm_compute; reflexivity).
  split; [exact H |].
  rewrite (proj1 (rebalance_instructions_ordered (row 60 40 0) (row 0 0 100) (or_introl H))).
  vm_compute. reflexivity.
Defined.

(** * The constructor of [Allocation] *)

(** C8, as the code has it.  The constructor checks the sum and nothing
    else: it raises exactly when [abs(total - 1.0) > 0.001] for the total
    [spy + tqqq + cash], and otherwise returns an object holding exactly the
    three weights supplied. *)
Theorem Allocation_new_checks_sum (s t c : float) :
  let total := add (add s t) c in
  let off := ltb (dec 1 3) (abs (sub total (dec 10 1))) in
  ((exists e, Allocation_new s t c = Raise e) <-> off = true) /\
  (off = true -> Allocation_new s t c = Raise (ValueError_weights total)) /\
  (off = false -> Allocation_new s t c = Ok (mkAllocation s t c)) /\
  (forall a, Allocation_new s t c = Ok a ->
     spy_weight a = s /\ tqqq_weight a = t /\ cash_weight a = c).
Proof.
  intros total off.
  assert (E : Allocation_new s t c =
              if off then Raise (ValueError_weights total) else Ok (mkAllocation s t c)).
  { unfold Allocation_new, Allocation_post_init, Allocation_total.
    cbn [spy_weight tqqq_weight cash_weight]. fold total. fold off.
    destruct off; reflexivity. }
  rewrite E. clearbody off total.
  destruct off; (split; [split |]).
  - reflexivity.
  - intros _. eexists. reflexivity.
  - split; [reflexivity |]. split; [intros H; discriminate H |].
    intros a H. discriminate H.
  - intros [e H]. discriminate H.
  - intros H. discriminate H.
  - split; [intros H; discriminate H |]. split; [reflexivity |].
    intros a H. injection H as <-. repeat split.
Qed.

Lemma Allocation_new_checks_sum_witness :
  Allocation_new (dec 50 2) (dec 60 2) (dec 0 1) =
    Raise (ValueError_weights (add (add (dec 50 2) (dec 60 2)) (dec 0 1))).
Proof.
  apply (proj1 (proj2 (Allocation_new_checks_sum (dec 50 2) (dec 60 2) (dec 0 1)))).
  vm_compute. reflexivity.
Defined.

(** C8 as the specification states it fails: weights [1.5], [-0.5], [0.0]
    are accepted although one of them is negative. *)
Lemma Allocation_new_accepts_negative :
  exists a,
    Allocation_new (dec 15 1) (dec (-5) 1) (dec 0 1) = Ok a /\
    ltb (tqqq_weight a) (S754_zero false) = true.
Proof.
  exists (mkAllocation (dec 15 1) (dec (-5) 1) (dec 0 1)).
  split; vm_compute; reflexivity.
Qed.

(** * The generator *)

Section GeneratorFacts.

Context {datetime : Type}.

Lemma eqb_zero_iff (x : float) :
  eqb x (of_Z 0) = true <-> exists s, x = S754_zero s.
Proof.
  change (of_Z 0) with (S754_zero false). split.
  - destruct x as [s | [] | | [] m e]; cbn; intros H; try discriminate H.
    exists s. reflexivity.
  - intros [s ->]. reflexivity.
Qed.

(** C7.  With a VIX3M close equal to zero, [generate] raises at the
    division that computes the ratio, whatever the other arguments and the
    state of the object; no signal is returned.  The same holds through
    [generate_from_data], and the property [MarketData.vix_ratio] raises its
    own error. *)
Theorem generate_zero_denominator
    (self : TrendMonsterSignal) (now : datetime)
    (spy_weekly_close spy_50week_sma vix_close vix3m_close : float)
    (weekly_as_of daily_as_of : option datetime) :
  eqb vix3m_close (of_Z 0) = true ->
  let data := mkMarketData spy_weekly_close spy_50week_sma vix_close vix3m_close
                weekly_as_of daily_as_of in
  generate self now spy_weekly_close spy_50week_sma vix_close vix3m_close
    weekly_as_of daily_as_of = Raise ZeroDivisionError /\
  generate_from_data self now data = Raise ZeroDivisionError /\
  MarketData_vix_ratio data = Raise ValueError_vix3m.
Proof.
  intros H data.
  assert (G : generate self now spy_weekly_close spy_50week_sma vix_close vix3m_close
                weekly_as_of daily_as_of = Raise ZeroDivisionError).
  { unfold generate, truediv.
    change (S754_zero false) with (of_Z 0). rewrite H. reflexivity. }
  split; [exact G | split].
  - exact G.
  - change (MarketData_vix_ratio data)
      with (if eqb vix3m_close (of_Z 0) then @Raise float ValueError_vix3m
            else truediv vix_close vix3m_close).
    rewrite H. reflexivity.
Qed.

(** The only error [generate] can raise is the division fault, and it
    raises it exactly on a zero VIX3M close, with or without a current
    allocation: a missing allocation is never the cause of an error. *)
Lemma generate_raises_iff
    (self : TrendMonsterSignal) (now : datetime)
    (spy_weekly_close spy_50week_sma vix_close vix3m_close : float)
    (weekly_as_of daily_as_of : option datetime) (e : exn) :
  generate self now spy_weekly_close spy_50week_sma vix_close vix3m_close
    weekly_as_of daily_as_of = Raise e <->
  e = ZeroDivisionError /\ eqb vix3m_close (of_Z 0) = true.
Proof.
  change (of_Z 0) with (S754_zero false).
  unfold generate, truediv.
  destruct (eqb vix3m_close (S754_zero false)); cbn [bind].
  - split; [intros H; injection H as <-; split; reflexivity | intros [-> _]; reflexivity].
  - destruct (calculate_allocation_returns
                (determine_trend spy_weekly_close spy_50week_sma)
                (div vix_close vix3m_close)) as (a & Ea & _).
    rewrite Ea. cbn [bind].
    destruct (match _current_allocation self with
              | Some current => generate_rebalance_instructions current a
              | None => (true, set_allocation_placeholder)
              end) as [req txt].
    split; [intros H; discriminate H | intros [_ H]; discriminate H].
Qed.

(** C9, as the code has it.  Without a current allocation, and with a
    non-zero VIX3M close, [generate] returns a signal whose
    [rebalance_required] is true and whose instruction is the fixed
    placeholder; every other field is the one the call returns when an
    allocation is held. *)
Theorem generate_without_allocation
    (now : datetime)
    (spy_weekly_close spy_50week_sma vix_close vix3m_close : float)
    (weekly_as_of daily_as_of : option datetime) :
  eqb vix3m_close (of_Z 0) = false ->
  exists s,
    generate (mkGenerator None) now spy_weekly_close spy_50week_sma vix_close
      vix3m_close weekly_as_of daily_as_of = Ok s /\
    rebalance_required s = true /\
    rebalance_instructions s = set_allocation_placeholder /\
    forall current, exists s',
      generate (mkGenerator (Some current)) now spy_weekly_close spy_50week_sma
        vix_close vix3m_close weekly_as_of daily_as_of = Ok s' /\
      trend s' = trend s /\ posture s' = posture s /\ vix_level s' = vix_level s /\
      allocation s' = allocation s /\ vix_ratio s' = vix_ratio s /\
      spy_close s' = spy_close s /\ spy_sma s' = spy_sma s /\
      signal_generated_at s' = signal_generated_at s /\
      weekly_data_as_of s' = weekly_data_as_of s /\
      daily_data_as_of s' = daily_data_as_of s.
Proof.
  intros H. change (of_Z 0) with (S754_zero false) in H.
  unfold generate, truediv. rewrite H. cbn [bind].
  set (ratio := div vix_close vix3m_close).
  set (tr := determine_trend spy_weekly_close spy_50week_sma).
  destruct (calculate_allocation_returns tr ratio) as (a & Ea & _).
  rewrite Ea. cbn [bind _current_allocation].
  eexists. split; [reflexivity |]. split; [reflexivity |]. split; [reflexivity |].
  intros current.
  destruct (generate_rebalance_instructions current a) as [req txt].
  eexists. split; [reflexivity |]. cbn. repeat split.
Qed.

End GeneratorFacts.

Lemma generate_zero_denominator_witness :
  generate (mkGenerator None) tt (dec 59500 2) (dec 54000 2) (dec 1450 2) (dec 0 1)
    None None = Raise ZeroDivisionError.
Proof.
  apply (generate_zero_denominator (mkGenerator None) tt
           (dec 59500 2) (dec 54000 2) (dec 1450 2) (dec 0 1) None None).
  vm_compute. reflexivity.
Defined.

Lemma generate_without_allocation_witness :
  exists s,
    generate (mkGenerator None) tt (dec 59500 2) (dec 54000 2) (dec 1450 2)
      (dec 1780 2) None None = Ok s /\
    rebalance_required s = true.
Proof.
  destruct (generate_without_allocation tt (dec 59500 2) (dec 54000 2) (dec 1450 2)
              (dec 1780 2) None None ltac:(vm_compute; reflexivity))
    as (s & Hs & Hr & _).
  exists s. split; [exact Hs | exact Hr].
Defined.

(** C9 as the specification states it fails on a zero VIX3M close: the
    generator whose allocation was never set raises there, as any other
    does, and returns no signal. *)
Lemma generate_without_allocation_zero_close :
  generate (datetime := unit) TrendMonsterSignal_init tt
    (dec 59500 2) (dec 54000 2) (dec 1450 2) (dec 0 1) None None =
    Raise ZeroDivisionError /\
  forall s, generate (datetime := unit) TrendMonsterSignal_init tt
              (dec 59500 2) (dec 54000 2) (dec 1450 2) (dec 0 1) None None <> Ok s.
Proof.
  assert (E : generate (datetime := unit) TrendMonsterSignal_init tt
                (dec 59500 2) (dec 54000 2) (dec 1450 2) (dec 0 1) None None =
              Raise ZeroDivisionError) by (vm_compute; reflexivity).
  split; [exact E | intros s H; rewrite E in H; discriminate H].
Qed.

(** * Serialization *)

Section Serialization.

Context {datetime : Type}.
Variable isoformat : datetime -> string.

(** C10, as the code has it.  The dictionary has exactly eight entries, in
    this order: the three state names, the allocation as percentages (each
    weight times 100, as computed, with no rounding), the indicators (ratio
    rounded to 4 decimals, close and SMA to 2), the rebalance flag and text,
    and the timestamps, an absent as-of date being [None]. *)
Theorem to_dict_fields (s : Signal datetime) :
  let d := to_dict isoformat s in
  let hundred := of_Z 100 in
  let optional t := match t with Some x => PyStr (isoformat x) | None => PyNone end in
  dict_keys d =
    ["trend"; "posture"; "vix_level"; "allocation"; "indicators";
     "rebalance_required"; "rebalance_instructions"; "timestamps"] /\
  dict_get d "trend" = Some (PyStr (Trend_value (trend s))) /\
  dict_get d "posture" = Some (PyStr (Posture_value (posture s))) /\
  dict_get d "vix_level" = Some (PyStr (VIXLevel_value (vix_level s))) /\
  dict_get d "allocation" = Some (PyDict [
    ("spy", PyFloat (mul (spy_weight (allocation s)) hundred));
    ("tqqq", PyFloat (mul (tqqq_weight (allocation s)) hundred));
    ("cash", PyFloat (mul (cash_weight (allocation s)) hundred)) ]) /\
  dict_get d "indicators" = Some (PyDict [
    ("vix_ratio", PyFloat (py_round (vix_ratio s) 4));
    ("spy_close", PyFloat (py_round (spy_close s) 2));
    ("spy_sma", PyFloat (py_round (spy_sma s) 2)) ]) /\
  dict_get d "rebalance_required" = Some (PyBool (rebalance_required s)) /\
  dict_get d "rebalance_instructions" = Some (PyStr (rebalance_instructions s)) /\
  dict_get d "timestamps" = Some (PyDict [
    ("signal_generated", PyStr (isoformat (signal_generated_at s)));
    ("weekly_data_as_of", optional (weekly_data_as_of s));
    ("daily_data_as_of", optional (daily_data_as_of s)) ]).
Proof.
  unfold to_dict, as_percentages, isoformat_or_None.
  repeat split.
Qed.

End Serialization.

(** C10 as the specification states it fails on the allocation entries:
    they are not rounded.  For the accepted allocation [0.29 / 0.71 / 0.0]
    the entry for SPY is [28.999999999999996], which no rounding to 0, 1, 2
    or 4 decimals leaves unchanged. *)
Lemma to_dict_percentages_unrounded :
  let a := mkAllocation (dec 29 2) (dec 71 2) (dec 0 1) in
  let s := mkSignal UPTREND AGGRESSIVE LOW a (dec 8146 4) (dec 59500 2) (dec 54000 2)
             false no_rebalance_message tt None None in
  let x := S754_finite false 8162774324609023 (-48) in
  Allocation_new (dec 29 2) (dec 71 2) (dec 0 1) = Ok a /\
  dict_get (to_dict (fun _ : unit => "2025-01-03T16:00:00") s) "allocation" =
    Some (PyDict [("spy", PyFloat x);
                  ("tqqq", PyFloat (of_Z 71));
                  ("cash", PyFloat (of_Z 0))]) /\
  x <> of_Z 29 /\
  py_round x 0 <> x /\ py_round x 1 <> x /\ py_round x 2 <> x /\ py_round x 4 <> x.
Proof.
  repeat split; vm_compute; (reflexivity || discriminate).
Qed.

(** * Level, posture and allocation together *)

Section LevelAndAllocation.

Import StrategyParams.

Lemma calculate_allocation_level (ratio : float) :
  calculate_allocation UPTREND ratio = Ok (level_row (classify_vix_level ratio)).
Proof.
  unfold calculate_allocation, classify_vix_level.
  destruct (ltb ratio VIX_VERY_LOW); [vm_compute; reflexivity |].
  destruct (ltb ratio VIX_LOW); [vm_compute; reflexivity |].
  destruct (ltb ratio VIX_MODERATE); [vm_compute; reflexivity |].
  destruct (ltb ratio VIX_ELEVATED); vm_compute; reflexivity.
Qed.

(** In an uptrend the allocation is a function of the volatility level
    alone, whatever the ratio (finite or not): the two chains of tests never
    disagree. *)
Theorem allocation_follows_level (ratio : float) :
  calculate_allocation UPTREND ratio = Ok (level_row (classify_vix_level ratio)) /\
  calculate_allocation DOWNTREND ratio = Ok (row 0 0 100).
Proof. split; [apply calculate_allocation_level | reflexivity]. Qed.

Lemma determine_posture_cases (ratio : float) :
  wf ratio ->
  (determine_posture UPTREND ratio = AGGRESSIVE /\ (F2Q ratio < T2)%Q) \/
  (determine_posture UPTREND ratio = BALANCED /\
     (T2 <= F2Q ratio)%Q /\ (F2Q ratio <= T4)%Q) \/
  (determine_posture UPTREND ratio = DEFENSIVE /\ (T4 < F2Q ratio)%Q).
Proof.
  intros Hr. unfold determine_posture.
  destruct (ltb ratio VIX_LOW) eqn:E1;
    [| destruct (ltb VIX_ELEVATED ratio) eqn:E2]; float_order.
  - left. split; [reflexivity | exact E1].
  - right; right. split; [reflexivity | exact E2].
  - right; left. split; [reflexivity | split; assumption].
Qed.

(** How the three postures of an uptrend sit on the five levels: AGGRESSIVE
    is the two lowest levels, the two middle levels are BALANCED, and
    DEFENSIVE only occurs at level HIGH.  Level HIGH is DEFENSIVE except for
    the single ratio equal to the last threshold, which is HIGH (and gets
    the 85/15 allocation) but BALANCED. *)
Theorem posture_on_levels (ratio : float) :
  wf ratio ->
  let level := classify_vix_level ratio in
  let posture := determine_posture UPTREND ratio in
  (posture = AGGRESSIVE <-> level = VERY_LOW \/ level = LOW) /\
  (level = MODERATE \/ level = ELEVATED -> posture = BALANCED) /\
  (posture = DEFENSIVE -> level = HIGH) /\
  (level = HIGH /\ posture = BALANCED <-> (F2Q ratio == T4)%Q).
Proof.
  intros Hr level posture. subst level posture.
  pose proof thresholds_ascending as (H12 & H23 & H34).
  pose proof (classify_vix_level_in_band ratio Hr) as Hb.
  pose proof (determine_posture_cases ratio Hr) as Hp.
  revert H12 H23 H34 Hb Hp.
  generalize (F2Q ratio), (classify_vix_level ratio), (determine_posture UPTREND ratio).
  intros r l p.
  assert (Hin : forall l', in_band r l' ->
            match l' with
            | VERY_LOW => (r < T1)%Q
            | LOW => (T1 <= r)%Q /\ (r < T2)%Q
            | MODERATE => (T2 <= r)%Q /\ (r < T3)%Q
            | ELEVATED => (T3 <= r)%Q /\ (r < T4)%Q
            | HIGH => (T4 <= r)%Q
            end).
  { intros l' H. destruct H; try split; assumption. }
  intros H12 H23 H34 Hb Hp. apply Hin in Hb. clear Hin.
  revert H12 H23 H34 Hb Hp. generalize T1, T2, T3, T4. intros t1 t2 t3 t4 H12 H23 H34 Hb Hp.
  destruct Hp as [[-> Hp] | [[-> [Hp Hp']] | [-> Hp]]]; destruct l;
    try (match type of Hb with _ /\ _ => destruct Hb as [Hb Hb'] end);
    (split; [split; [intros G | intros [G | G]] |
     split; [intros [G | G] |
     split; [intros G | split; [intros [G G'] | intros G; split]]]]);
    try reflexivity; try discriminate G; try discriminate G';
    try (left; reflexivity); try (right; reflexivity);
    try (exfalso; lra); try lra.
Qed.

End LevelAndAllocation.

Lemma posture_on_levels_witness :
  wf (dec 105 2) /\
  classify_vix_level (dec 105 2) = HIGH /\ determine_posture UPTREND (dec 105 2) = BALANCED.
Proof.
  assert (Hr : wf (dec 105 2)) by (split; reflexivity).
  split; [exact Hr |].
  apply (proj2 (proj2 (proj2 (proj2 (posture_on_levels (dec 105 2) Hr))))).
  vm_compute. reflexivity.
Defined.

(** * Monotonicity in the ratio *)

Lemma in_band_bounds (r : Q) (l : VIXLevel) :
  in_band r l ->
  match l with
  | VERY_LOW => (r < T1)%Q
  | LOW => (T1 <= r)%Q /\ (r < T2)%Q
  | MODERATE => (T2 <= r)%Q /\ (r < T3)%Q
  | ELEVATED => (T3 <= r)%Q /\ (r < T4)%Q
  | HIGH => (T4 <= r)%Q
  end.
Proof. intros H. destruct H; try split; assumption. Qed.

Lemma classify_vix_level_rank_monotone (r1 r2 : float) :
  wf r1 -> wf r2 -> (F2Q r1 <= F2Q r2)%Q ->
  (level_rank (classify_vix_level r1) <= level_rank (classify_vix_level r2))%nat.
Proof.
  intros H1 H2 Hle.
  pose proof thresholds_ascending as (H12 & H23 & H34).
  pose proof (in_band_bounds _ _ (classify_vix_level_in_band r1 H1)) as B1.
  pose proof (in_band_bounds _ _ (classify_vix_level_in_band r2 H2)) as B2.
  revert H12 H23 H34 B1 B2 Hle.
  generalize (F2Q r1), (F2Q r2), (classify_vix_level r1), (classify_vix_level r2).
  generalize T1, T2, T3, T4.
  intros t1 t2 t3 t4 q1 q2 l1 l2 H12 H23 H34 B1 B2 Hle.
  destruct l1, l2; cbn [level_rank]; try lia; exfalso;
    repeat match goal with H : _ /\ _ |- _ => destruct H end; lra.
Qed.

Lemma level_row_monotone (l1 l2 : VIXLevel) :
  (level_rank l1 <= level_rank l2)%nat ->
  leb (spy_weight (level_row l1)) (spy_weight (level_row l2)) = true /\
  leb (tqqq_weight (level_row l2)) (tqqq_weight (level_row l1)) = true.
Proof.
  destruct l1, l2; cbn [level_rank]; intros H; try lia;
    split; vm_compute; reflexivity.
Qed.

(** A higher ratio never gives a lower volatility level, and in an uptrend
    it never gives less SPY nor more TQQQ: leverage only goes down as the
    ratio goes up. *)
Theorem allocation_monotone (r1 r2 : float) (a1 a2 : Allocation) :
  wf r1 -> wf r2 -> (F2Q r1 <= F2Q r2)%Q ->
  calculate_allocation UPTREND r1 = Ok a1 ->
  calculate_allocation UPTREND r2 = Ok a2 ->
  (level_rank (classify_vix_level r1) <= level_rank (classify_vix_level r2))%nat /\
  leb (spy_weight a1) (spy_weight a2) = true /\
  leb (tqqq_weight a2) (tqqq_weight a1) = true.
Proof.
  intros H1 H2 Hle E1 E2.
  rewrite calculate_allocation_level in E1, E2.
  injection E1 as <-. injection E2 as <-.
  pose proof (classify_vix_level_rank_monotone r1 r2 H1 H2 Hle) as Hrank.
  split; [exact Hrank | apply level_row_monotone, Hrank].
Qed.

Lemma allocation_monotone_witness :
  leb (spy_weight (row 50 50 0)) (spy_weight (row 75 25 0)) = true /\
  leb (tqqq_weight (row 75 25 0)) (tqqq_weight (row 50 50 0)) = true.
Proof.
  assert (H1 : wf (dec 85 2)) by (split; reflexivity).
  assert (H2 : wf (dec 100 2)) by (split; reflexivity).
  assert (Hle : (F2Q (dec 85 2) <= F2Q (dec 100 2))%Q).
  { apply (leb_F2Q _ _ H1 H2). vm_compute. reflexivity. }
  exact (proj2 (allocation_monotone (dec 85 2) (dec 100 2) (row 50 50 0) (row 75 25 0)
                  H1 H2 Hle ltac:(vm_compute; reflexivity) ltac:(vm_compute; reflexivity))).
Defined.

(** * What every generated signal satisfies *)

Section SignalInvariants.

Context {datetime : Type}.

(** The shape of a successful call of [generate]. *)
Lemma generate_ok_inv
    (self : TrendMonsterSignal) (now : datetime)
    (spy_weekly_close spy_50week_sma vix_close vix3m_close : float)
    (weekly_as_of daily_as_of : option datetime) (s : Signal datetime) :
  generate self now spy_weekly_close spy_50week_sma vix_close vix3m_close
    weekly_as_of daily_as_of = Ok s ->
  let ratio := div vix_close vix3m_close in
  let tr := determine_trend spy_weekly_close spy_50week_sma in
  let a := match tr with
           | DOWNTREND => row 0 0 100
           | UPTREND => level_row (classify_vix_level ratio)
           end in
  let rt := match _current_allocation self with
            | Some current => generate_rebalance_instructions current a
            | None => (true, set_allocation_placeholder)
            end in
  eqb vix3m_close (of_Z 0) = false /\
  s = mkSignal tr (determine_posture tr ratio) (classify_vix_level ratio) a ratio
        spy_weekly_close spy_50week_sma (fst rt) (snd rt) now weekly_as_of daily_as_of.
Proof.
  intros H ratio tr a rt.
  change (of_Z 0) with (S754_zero false).
  unfold generate, truediv in H.
  destruct (eqb vix3m_close (S754_zero false)); cbn [bind] in H; [discriminate H |].
  split; [reflexivity |].
  fold ratio tr in H.
  assert (Ea : calculate_allocation tr ratio = Ok a).
  { subst a. destruct tr; [apply calculate_allocation_level | reflexivity]. }
  rewrite Ea in H. cbn [bind] in H. fold rt in H.
  destruct rt as [req txt]. injection H as <-. reflexivity.
Qed.

Lemma level_row_facts (l : VIXLevel) :
  level_row l <> row 0 0 100 /\
  cash_weight (level_row l) = S754_zero false /\
  valid_allocation (level_row l) /\ finite_allocation (level_row l) /\
  Allocation_total (level_row l) = dec 100 2.
Proof.
  destruct l; (split; [vm_compute; discriminate |]);
    repeat split; vm_compute; reflexivity.
Qed.

Lemma cash_row_facts :
  valid_allocation (row 0 0 100) /\ finite_allocation (row 0 0 100) /\
  Allocation_total (row 0 0 100) = dec 100 2.
Proof. repeat split; vm_compute; reflexivity. Qed.

(** Every signal [generate] returns is coherent: the posture is CASH
    exactly in a downtrend, the allocation is all cash exactly in a
    downtrend, an uptrend holds no cash and gets the allocation of the
    signal's own volatility level, and the allocation is always a valid one
    whose total is [1.0]. *)
Theorem generate_signal_coherent
    (self : TrendMonsterSignal) (now : datetime)
    (spy_weekly_close spy_50week_sma vix_close vix3m_close : float)
    (weekly_as_of daily_as_of : option datetime) (s : Signal datetime) :
  generate self now spy_weekly_close spy_50week_sma vix_close vix3m_close
    weekly_as_of daily_as_of = Ok s ->
  (posture s = CASH <-> trend s = DOWNTREND) /\
  (allocation s = row 0 0 100 <-> trend s = DOWNTREND) /\
  (trend s = UPTREND ->
     allocation s = level_row (vix_level s) /\
     cash_weight (allocation s) = S754_zero false) /\
  valid_allocation (allocation s) /\
  Allocation_total (allocation s) = dec 100 2.
Proof.
  intros H. apply generate_ok_inv in H as [_ ->].
  cbn [posture trend allocation vix_level].
  destruct (determine_trend spy_weekly_close spy_50week_sma).
  - destruct (level_row_facts (classify_vix_level (div vix_close vix3m_close)))
      as (Hne & Hc & Hv & _ & Ht).
    split; [| split; [| split; [| split]]].
    + unfold determine_posture.
      destruct (ltb _ _); [| destruct (ltb _ _)]; split; intros G; discriminate G.
    + split; [intros G; contradiction | intros G; discriminate G].
    + intros _. split; [reflexivity | exact Hc].
    + exact Hv.
    + exact Ht.
  - destruct cash_row_facts as (Hv & _ & Ht).
    split; [| split; [| split; [| split]]].
    + split; reflexivity.
    + split; reflexivity.
    + intros G. discriminate G.
    + exact Hv.
    + exact Ht.
Qed.

(** Once the portfolio holds the allocation of a signal, the same market
    data asks for nothing more: setting the current allocation to the
    signal's weights succeeds, and the next signal has
    [rebalance_required = false] with the no-rebalance message and the same
    allocation. *)
Theorem generate_after_rebalancing
    (self : TrendMonsterSignal) (now later : datetime)
    (spy_weekly_close spy_50week_sma vix_close vix3m_close : float)
    (weekly_as_of daily_as_of : option datetime) (s : Signal datetime) :
  generate self now spy_weekly_close spy_50week_sma vix_close vix3m_close
    weekly_as_of daily_as_of = Ok s ->
  exists self' s',
    set_current_allocation self (spy_weight (allocation s))
      (tqqq_weight (allocation s)) (cash_weight (allocation s)) = Ok self' /\
    generate self' later spy_weekly_close spy_50week_sma vix_close vix3m_close
      weekly_as_of daily_as_of = Ok s' /\
    rebalance_required s' = false /\
    rebalance_instructions s' = no_rebalance_message /\
    allocation s' = allocation s.
Proof.
  intros H. apply generate_ok_inv in H as [Hz ->].
  cbn [allocation].
  set (ratio := div vix_close vix3m_close).
  set (tr := determine_trend spy_weekly_close spy_50week_sma).
  set (a := match tr with
            | DOWNTREND => row 0 0 100
            | UPTREND => level_row (classify_vix_level ratio)
            end).
  assert (Ha : Allocation_post_init a = Ok tt /\ finite_allocation a).
  { subst a. destruct tr.
    - destruct (level_row_facts (classify_vix_level ratio)) as (_ & _ & Hv & Hf & _).
      split; [apply Hv | exact Hf].
    - destruct cash_row_facts as (Hv & Hf & _). split; [apply Hv | exact Hf]. }
  destruct Ha as [Hpost Hfin].
  assert (Ea : calculate_allocation tr ratio = Ok a).
  { subst a. destruct tr; [apply calculate_allocation_level | reflexivity]. }
  exists (mkGenerator (Some a)).
  eexists. split; [| split].
  - unfold set_current_allocation, Allocation_new.
    replace (mkAllocation (spy_weight a) (tqqq_weight a) (cash_weight a)) with a
      by (destruct a; reflexivity).
    rewrite Hpost. reflexivity.
  - unfold generate, truediv.
    change (of_Z 0) with (S754_zero false) in Hz. rewrite Hz. cbn [bind].
    fold ratio tr. rewrite Ea. cbn [bind _current_allocation].
    rewrite (diff_identical a Hfin). reflexivity.
  - cbn. repeat split.
Qed.

End SignalInvariants.

Lemma generate_signal_coherent_witness :
  exists s : Signal unit,
    generate (mkGenerator None) tt (dec 40000 2) (dec 42000 2) (dec 1550 2) (dec 1820 2)
      None None = Ok s /\
    posture s = CASH /\ allocation s = row 0 0 100.
Proof.
  eexists. split; [vm_compute; reflexivity |].
  pose proof (generate_signal_coherent (mkGenerator None) tt
                (dec 40000 2) (dec 42000 2) (dec 1550 2) (dec 1820 2) None None _
                ltac:(vm_compute; reflexivity)) as (Hp & Ha & _).
  split; [apply (proj2 Hp) | apply (proj2 Ha)]; reflexivity.
Defined.

Lemma generate_after_rebalancing_witness :
  exists (self' : TrendMonsterSignal) (s' : Signal unit),
    generate self' tt (dec 59500 2) (dec 54000 2) (dec 1450 2) (dec 1780 2)
      None None = Ok s' /\
    rebalance_required s' = false.
Proof.
  destruct (generate_after_rebalancing (mkGenerator None) tt tt
              (dec 59500 2) (dec 54000 2) (dec 1450 2) (dec 1780 2) None None _
              ltac:(vm_compute; reflexivity))
    as (self' & s' & _ & Hg & Hr & _).
  exists self', s'. split; [exact Hg | exact Hr].
Defined.

(** * Reversing a rebalance *)

Section Reverse.

Lemma binary_round_aux_opp (s : bool) (mx ex : Z) (lx : location) :
  binary_round_aux prec emax (negb s) mx ex lx =
  SFopp (binary_round_aux prec emax s mx ex lx).
Proof.
  unfold binary_round_aux.
  destruct (shr_fexp prec emax mx ex lx) as [mrs' e'].
  destruct (shr_fexp prec emax (round_nearest_even (shr_m mrs') (loc_of_shr_record mrs'))
              e' loc_Exact) as [mrs'' e''].
  destruct (shr_m mrs'') as [| p | p]; try reflexivity.
  destruct (e'' <=? emax - prec); reflexivity.
Qed.

Lemma binary_round_opp (s : bool) (m : positive) (e : Z) :
  binary_round prec emax (negb s) m e = SFopp (binary_round prec emax s m e).
Proof.
  unfold binary_round.
  destruct (shl_align m e (fexp prec emax (Z.pos (digits2_pos m) + e))) as [mz ez].
  apply binary_round_aux_opp.
Qed.

Lemma binary_normalize_opp (z e : Z) :
  z <> 0 ->
  binary_normalize prec emax (- z) e false = SFopp (binary_normalize prec emax z e false).
Proof.
  destruct z as [| p | p]; intros Hz; [contradiction | |]; cbn [Z.opp binary_normalize].
  - apply (binary_round_opp false).
  - apply (binary_round_opp true).
Qed.

(** [b - a] is the opposite of [a - b], except that both are [+0.0] when the
    exact difference is zero. *)
Lemma sub_swap (a b : float) :
  sub b a = SFopp (sub a b) \/
  (sub a b = S754_zero false /\ sub b a = S754_zero false).
Proof.
  destruct a as [[] | [] | | sa ma ea], b as [[] | [] | | sb mb eb];
    try (left; reflexivity); try (right; split; reflexivity);
    try (left; destruct sb; reflexivity); try (left; destruct sa; reflexivity).
  unfold sub, SFsub.
  rewrite (Z.min_comm eb ea).
  set (ez := Z.min ea eb).
  set (za := cond_Zopp sa (Z.pos (fst (shl_align ma ea ez)))).
  set (zb := cond_Zopp sb (Z.pos (fst (shl_align mb eb ez)))).
  destruct (Z.eq_dec (za - zb) 0) as [E | NE].
  - right. replace (zb - za) with 0 by lia. rewrite E. split; reflexivity.
  - left. replace (zb - za) with (- (za - zb)) by lia.
    apply binary_normalize_opp, NE.
Qed.

Lemma swap_abs (d d' : float) :
  d' = SFopp d \/ (d = S754_zero false /\ d' = S754_zero false) ->
  abs d' = abs d.
Proof.
  intros [-> | [-> ->]]; [destruct d; reflexivity | reflexivity].
Qed.

Lemma swap_sign (d d' : float) :
  d' = SFopp d \/ (d = S754_zero false /\ d' = S754_zero false) ->
  ltb (S754_zero false) d' = ltb d (S754_zero false).
Proof.
  intros [-> | [-> ->]]; [| reflexivity].
  destruct d as [[] | [] | | [] m e]; reflexivity.
Qed.

Lemma opposite_instruction_for_material (i : instrument) (d d' : float) :
  d' = SFopp d \/ (d = S754_zero false /\ d' = S754_zero false) ->
  material d = true ->
  material d' = true /\
  opposite_instruction_for i d =
  Some match i with
       | SPY => trade_instruction "SPY" d'
       | TQQQ => trade_instruction "TQQQ" d'
       | Cash => cash_instruction d'
       end.
Proof.
  intros Hsw Hm.
  pose proof (swap_abs d d' Hsw) as Habs.
  pose proof (swap_sign d d' Hsw) as Hsign.
  pose proof (material_signed d Hm) as Hd.
  split; [unfold material in *; rewrite Habs; exact Hm |].
  unfold opposite_instruction_for, trade_instruction, cash_instruction, pct_text.
  rewrite Habs, Hsign, Hd.
  destruct i; destruct (ltb d (S754_zero false)); reflexivity.
Qed.

(** The diff of the reverse move, target to current, is required exactly
    when the forward one is, and lists the same instruments with the same
    percentages and the opposite verbs: BUY for SELL, and moving to cash for
    deploying from cash. *)
Theorem rebalance_reverse (current target : Allocation) :
  let deltas := [(SPY, spy_change current target);
                 (TQQQ, tqqq_change current target);
                 (Cash, cash_change current target)] in
  generate_rebalance_instructions target current =
  if fst (generate_rebalance_instructions current target)
  then (true, execute_prefix ++ String.concat separator (opposite_instructions_for deltas))
  else (false, no_rebalance_message).
Proof.
  intros deltas. subst deltas.
  rewrite !generate_rebalance_instructions_unfold.
  pose proof (sub_swap (spy_weight target) (spy_weight current)) as Hs.
  pose proof (sub_swap (tqqq_weight target) (tqqq_weight current)) as Ht.
  pose proof (sub_swap (cash_weight target) (cash_weight current)) as Hc.
  fold (spy_change current target) (spy_change target current) in Hs.
  fold (tqqq_change current target) (tqqq_change target current) in Ht.
  fold (cash_change current target) (cash_change target current) in Hc.
  revert Hs Ht Hc.
  generalize (spy_change current target), (spy_change target current),
    (tqqq_change current target), (tqqq_change target current),
    (cash_change current target), (cash_change target current).
  intros ds ds' dt dt' dc dc' Hs Ht Hc.
  assert (Is : immaterial ds' = immaterial ds)
    by (unfold immaterial; rewrite (swap_abs _ _ Hs); reflexivity).
  assert (It : immaterial dt' = immaterial dt)
    by (unfold immaterial; rewrite (swap_abs _ _ Ht); reflexivity).
  assert (Ic : immaterial dc' = immaterial dc)
    by (unfold immaterial; rewrite (swap_abs _ _ Hc); reflexivity).
  assert (Ms : material ds' = material ds)
    by (unfold material; rewrite (swap_abs _ _ Hs); reflexivity).
  assert (Mt : material dt' = material dt)
    by (unfold material; rewrite (swap_abs _ _ Ht); reflexivity).
  assert (Mc : material dc' = material dc)
    by (unfold material; rewrite (swap_abs _ _ Hc); reflexivity).
  rewrite Is, It, Ic, Ms, Mt, Mc.
  destruct (immaterial ds && immaterial dt && immaterial dc); cbn [fst]; [reflexivity |].
  cbn [opposite_instructions_for].
  destruct (material ds) eqn:Es;
    [rewrite (proj2 (opposite_instruction_for_material SPY ds ds' Hs Es)) |];
  (destruct (material dt) eqn:Et;
    [rewrite (proj2 (opposite_instruction_for_material TQQQ dt dt' Ht Et)) |]);
  (destruct (material dc) eqn:Ec;
    [rewrite (proj2 (opposite_instruction_for_material Cash dc dc' Hc Ec)) |]);
  reflexivity.
Qed.

End Reverse.

(** * Finite allocations always get instructions *)

Section FiniteDiff.

Lemma binary_normalize_not_nan (z e : Z) :
  is_nan (binary_normalize prec emax z e false) = false.
Proof.
  destruct z as [| p | p]; cbn [binary_normalize]; [reflexivity | |].
  - pose proof (binary_round_sign false p e) as H.
    destruct (binary_round prec emax false p e); try reflexivity; contradiction.
  - pose proof (binary_round_sign true p e) as H.
    destruct (binary_round prec emax true p e); try reflexivity; contradiction.
Qed.

(** The difference of two finite floats is never a NaN. *)
Lemma sub_finite_not_nan (a b : float) :
  is_finite a = true -> is_finite b = true -> is_nan (sub a b) = false.
Proof.
  destruct a as [[] | sa | | sa ma ea], b as [[] | sb | | sb mb eb];
    intros Ha Hb; try discriminate Ha; try discriminate Hb; try reflexivity.
  unfold sub, SFsub. apply binary_normalize_not_nan.
Qed.

Lemma SFcompare_not_nan (a b : float) :
  is_nan a = false -> is_nan b = false -> SFcompare a b <> None.
Proof.
  destruct a as [[] | [] | | [] ma ea], b as [[] | [] | | [] mb eb];
    intros Ha Hb; try discriminate Ha; try discriminate Hb; cbn [SFcompare]; discriminate.
Qed.

(** For a delta that is not a NaN, material is the negation of immaterial. *)
Lemma material_negb_immaterial (d : float) :
  is_nan d = false -> material d = negb (immaterial d).
Proof.
  intros Hd. unfold material, immaterial, leb, ltb, SFleb, SFltb.
  assert (Ht : is_nan threshold = false) by (vm_compute; reflexivity).
  assert (Ha : is_nan (abs d) = false) by (destruct d; (discriminate Hd || reflexivity)).
  pose proof (SFcompare_not_nan (abs d) threshold Ha Ht) as Hc.
  rewrite (SFcompare_antisym (abs d) threshold).
  destruct (SFcompare (abs d) threshold) as [[] |]; try reflexivity; contradiction.
Qed.

Lemma append_eq_self (s t : string) : s ++ t = s -> t = "".
Proof.
  induction s as [| c s IH]; cbn [append]; intros H; [exact H |].
  injection H as H. apply IH, H.
Qed.

Lemma trade_instruction_nonempty (ticker : string) (change : float) :
  trade_instruction ticker change <> "".
Proof.
  unfold trade_instruction. destruct (ltb (S754_zero false) change); cbn [append]; discriminate.
Qed.

Lemma cash_instruction_nonempty (change : float) : cash_instruction change <> "".
Proof.
  unfold cash_instruction. destruct (ltb (S754_zero false) change); cbn [append]; discriminate.
Qed.

Lemma concat_cons_nonempty (sep first : string) (rest : list string) :
  first <> "" -> String.concat sep (first :: rest) <> "".
Proof.
  intros Hne. destruct first as [| c first]; [contradiction |].
  destruct rest; cbn [String.concat append]; discriminate.
Qed.

(** Between allocations with finite weights a rebalance is required exactly
    when some delta is material, and its text is then the notice followed
    by a non-empty joined list whose first element is the instruction of
    one of the three instruments: the bare notice is never returned. *)
Theorem rebalance_required_has_instruction (current target : Allocation) :
  finite_allocation current -> finite_allocation target ->
  (fst (generate_rebalance_instructions current target) = true <->
     material (spy_change current target) = true \/
     material (tqqq_change current target) = true \/
     material (cash_change current target) = true) /\
  (fst (generate_rebalance_instructions current target) = true ->
     snd (generate_rebalance_instructions current target) <> execute_prefix /\
     exists first rest,
       snd (generate_rebalance_instructions current target) =
         execute_prefix ++ String.concat separator (first :: rest) /\
       first <> "" /\
       In first [trade_instruction "SPY" (spy_change current target);
                 trade_instruction "TQQQ" (tqqq_change current target);
                 cash_instruction (cash_change current target)]).
Proof.
  intros (Cs & Ct & Cc) (Ts & Tt & Tc).
  rewrite generate_rebalance_instructions_unfold.
  pose proof (material_negb_immaterial _ (sub_finite_not_nan _ _ Ts Cs)) as Ms.
  pose proof (material_negb_immaterial _ (sub_finite_not_nan _ _ Tt Ct)) as Mt.
  pose proof (material_negb_immaterial _ (sub_finite_not_nan _ _ Tc Cc)) as Mc.
  fold (spy_change current target) in Ms.
  fold (tqqq_change current target) in Mt.
  fold (cash_change current target) in Mc.
  revert Ms Mt Mc.
  generalize (spy_change current target), (tqqq_change current target),
    (cash_change current target).
  intros ds dt dc Ms Mt Mc. rewrite Ms, Mt, Mc.
  pose proof (trade_instruction_nonempty "SPY" ds) as Ns.
  pose proof (trade_instruction_nonempty "TQQQ" dt) as Nt.
  pose proof (cash_instruction_nonempty dc) as Nc.
  assert (Hlist : forall first rest, first <> "" ->
            In first [trade_instruction "SPY" ds; trade_instruction "TQQQ" dt;
                      cash_instruction dc] ->
            execute_prefix ++ String.concat separator (first :: rest) <> execute_prefix /\
            exists first' rest',
              execute_prefix ++ String.concat separator (first :: rest) =
                execute_prefix ++ String.concat separator (first' :: rest') /\
              first' <> "" /\
              In first' [trade_instruction "SPY" ds; trade_instruction "TQQQ" dt;
                         cash_instruction dc]).
  { intros first rest Hne Hin. split.
    - intros H. apply append_eq_self in H.
      exact (concat_cons_nonempty separator first rest Hne H).
    - exists first, rest. split; [reflexivity | split; assumption]. }
  destruct (immaterial ds), (immaterial dt), (immaterial dc);
    cbn [negb andb fst snd app];
    (split; [split; [intros H; try discriminate H; tauto
                    | intros [H | [H | H]]; (discriminate H || reflexivity)]
            | intros H; try discriminate H]);
    apply Hlist; try assumption; cbn [In]; tauto.
Qed.

End FiniteDiff.

Lemma rebalance_required_has_instruction_witness :
  finite_allocation (row 60 40 0) /\ finite_allocation (row 50 50 0) /\
  snd (generate_rebalance_instructions (row 60 40 0) (row 50 50 0)) <> execute_prefix.
Proof.
  assert (Hc : finite_allocation (row 60 40 0)) by (repeat split; vm_compute; reflexivity).
  assert (Ht : finite_allocation (row 50 50 0)) by (repeat split; vm_compute; reflexivity).
  split; [exact Hc | split; [exact Ht |]].
  apply (proj2 (rebalance_required_has_instruction (row 60 40 0) (row 50 50 0) Hc Ht)).
  vm_compute. reflexivity.
Defined.

(** * Printed percentages *)

Section Percentages.

Lemma string_of_Z_unsigned (n : Z) (rest : string) :
  String.prefix "-" (string_of_Z n ++ rest) = false.
Proof.
  unfold string_of_Z. generalize (N.to_uint (Z.to_N n)). intros u.
  destruct u; reflexivity.
Qed.

Lemma format_fixed_unsigned (q : Z) (nd : nat) :
  String.prefix "-" (format_fixed q nd) = false.
Proof.
  unfold format_fixed. destruct nd as [| k].
  - unfold string_of_Z. generalize (N.to_uint (Z.to_N q)). intros u.
    destruct u; reflexivity.
  - apply string_of_Z_unsigned.
Qed.

Lemma format_f_unsigned (nd : nat) (x : float) :
  signed_like false x \/ x = S754_nan ->
  String.prefix "-" (format_f nd x) = false.
Proof.
  intros [H | ->]; [| reflexivity].
  destruct x as [s | s | | s m e]; cbn [signed_like] in H; try contradiction; subst s;
    cbn [format_f]; try reflexivity; apply (format_fixed_unsigned _ nd).
Qed.

Lemma mul_abs_hundred_sign (change : float) :
  signed_like false (mul (abs change) (of_Z 100)) \/
  mul (abs change) (of_Z 100) = S754_nan.
Proof.
  change (of_Z 100) with (S754_finite false 7036874417766400 (-46)).
  destruct change as [s | s | | s m e]; cbn [abs SFabs];
    [left; reflexivity | left; reflexivity | right; reflexivity | left].
  unfold mul, SFmul. cbn [xorb].
  apply binary_round_aux_sign. lia.
Qed.

(** The percentage printed in an instruction never carries a minus sign,
    whatever the delta: the direction is only in the verb. *)
Theorem pct_text_unsigned (change : float) :
  String.prefix "-" (pct_text change) = false.
Proof.
  unfold pct_text. apply format_f_unsigned, mul_abs_hundred_sign.
Qed.

End Percentages.

(** * Non-finite market data *)

Section NotANumber.

Context {datetime : Type}.

Lemma determine_trend_nan (price reference : float) :
  is_nan price = true \/ is_nan reference = true ->
  determine_trend price reference = DOWNTREND.
Proof.
  unfold determine_trend, ltb, SFltb.
  intros [H | H].
  - destruct price; try discriminate H. destruct reference as [| [] | |]; reflexivity.
  - destruct reference; try discriminate H. destruct price; reflexivity.
Qed.

Lemma div_nan (a b : float) :
  is_nan a = true \/ is_nan b = true -> div a b = S754_nan.
Proof.
  intros [H | H].
  - destruct a; try discriminate H. reflexivity.
  - destruct b; try discriminate H. destruct a; reflexivity.
Qed.

(** NaN market data is not rejected.  With a non-zero VIX3M close, a NaN
    price or moving average gives a DOWNTREND signal, all cash; a NaN VIX or
    VIX3M close gives a NaN ratio, which is classified HIGH and, in an
    uptrend, gets the 85/15 allocation with posture BALANCED. *)
Theorem generate_nan_inputs
    (self : TrendMonsterSignal) (now : datetime)
    (spy_weekly_close spy_50week_sma vix_close vix3m_close : float)
    (weekly_as_of daily_as_of : option datetime) :
  eqb vix3m_close (of_Z 0) = false ->
  exists s,
    generate self now spy_weekly_close spy_50week_sma vix_close vix3m_close
      weekly_as_of daily_as_of = Ok s /\
    (is_nan spy_weekly_close = true \/ is_nan spy_50week_sma = true ->
       trend s = DOWNTREND /\ posture s = CASH /\ allocation s = row 0 0 100) /\
    (is_nan vix_close = true \/ is_nan vix3m_close = true ->
       vix_ratio s = S754_nan /\ vix_level s = HIGH /\
       (trend s = UPTREND -> posture s = BALANCED /\ allocation s = row 85 15 0)).
Proof.
  intros Hz.
  destruct (generate self now spy_weekly_close spy_50week_sma vix_close vix3m_close
              weekly_as_of daily_as_of) as [s | e] eqn:G.
  - exists s. split; [reflexivity |].
    apply generate_ok_inv in G as [_ ->].
    cbn [trend posture allocation vix_ratio vix_level].
    split.
    + intros Hn. rewrite (determine_trend_nan _ _ Hn). repeat split.
    + intros Hn. rewrite (div_nan _ _ Hn).
      split; [reflexivity | split; [reflexivity |]].
      intros ->. split; reflexivity.
  - exfalso. apply generate_raises_iff in G as [_ G]. rewrite G in Hz. discriminate Hz.
Qed.

End NotANumber.

Lemma generate_nan_inputs_witness :
  exists s : Signal unit,
    generate (mkGenerator None) tt (dec 59500 2) (dec 54000 2) S754_nan (dec 1780 2)
      None None = Ok s /\
    vix_level s = HIGH /\ posture s = BALANCED.
Proof.
  destruct (generate_nan_inputs (mkGenerator None) tt (dec 59500 2) (dec 54000 2)
              S754_nan (dec 1780 2) None None ltac:(vm_compute; reflexivity))
    as (s & Hs & _ & Hn).
  exists s. split; [exact Hs |].
  destruct (Hn (or_introl eq_refl)) as (_ & Hl & Hu).
  split; [exact Hl |]. apply Hu.
  apply generate_ok_inv in Hs as [_ ->]. vm_compute. reflexivity.
Defined.

(** * The convenience functions *)

Section Convenience.

Context {datetime : Type}.
Variable isoformat : datetime -> string.

Lemma as_percentages_whole (tr : Trend) (l : VIXLevel) :
  In (as_percentages (match tr with
                      | DOWNTREND => row 0 0 100
                      | UPTREND => level_row l
                      end)) whole_percentages.
Proof.
  destruct tr; [destruct l |]; vm_compute; tauto.
Qed.

Lemma get_allocation_only_eq
    (spy_weekly_close spy_50week_sma vix_close vix3m_close : float) :
  get_allocation_only spy_weekly_close spy_50week_sma vix_close vix3m_close =
  if eqb vix3m_close (of_Z 0) then Raise ZeroDivisionError
  else Ok (as_percentages
             (match determine_trend spy_weekly_close spy_50week_sma with
              | DOWNTREND => row 0 0 100
              | UPTREND => level_row (classify_vix_level (div vix_close vix3m_close))
              end)).
Proof.
  change (of_Z 0) with (S754_zero false).
  unfold get_allocation_only, truediv.
  destruct (eqb vix3m_close (S754_zero false)); cbn [bind]; [reflexivity |].
  destruct (determine_trend spy_weekly_close spy_50week_sma).
  - rewrite calculate_allocation_level. reflexivity.
  - reflexivity.
Qed.

(** [get_allocation_only] raises exactly on a zero VIX3M close, and
    otherwise returns one of six triples of whole percentages: although
    nothing is rounded, the products [weight * 100] of the tabled weights
    are exact. *)
Theorem get_allocation_only_whole
    (spy_weekly_close spy_50week_sma vix_close vix3m_close : float) :
  let r := get_allocation_only spy_weekly_close spy_50week_sma vix_close vix3m_close in
  (forall e, r = Raise e <-> e = ZeroDivisionError /\ eqb vix3m_close (of_Z 0) = true) /\
  (forall p, r = Ok p -> In p whole_percentages) /\
  (eqb vix3m_close (of_Z 0) = false -> exists p, r = Ok p).
Proof.
  intros r. subst r. rewrite get_allocation_only_eq.
  destruct (eqb vix3m_close (of_Z 0)).
  - split; [| split].
    + intros e. split; [intros H; injection H as <-; split; reflexivity |
                        intros [-> _]; reflexivity].
    + intros p H. discriminate H.
    + intros H. discriminate H.
  - split; [| split].
    + intros e. split; [intros H; discriminate H | intros [_ H]; discriminate H].
    + intros p H. injection H as <-. apply as_percentages_whole.
    + intros _. eexists. reflexivity.
Qed.

(** [get_signal] works on a fresh generator: whenever it returns, the
    dictionary says [rebalance_required] is true with the placeholder text,
    both as-of dates are [None], and its allocation entries are the triple
    [get_allocation_only] returns for the same inputs. *)
Theorem get_signal_fresh (now : datetime)
    (spy_weekly_close spy_50week_sma vix_close vix3m_close : float) (d : pyvalue) :
  get_signal isoformat now spy_weekly_close spy_50week_sma vix_close vix3m_close = Ok d ->
  dict_get d "rebalance_required" = Some (PyBool true) /\
  dict_get d "rebalance_instructions" = Some (PyStr set_allocation_placeholder) /\
  dict_get d "timestamps" = Some (PyDict [
    ("signal_generated", PyStr (isoformat now));
    ("weekly_data_as_of", PyNone);
    ("daily_data_as_of", PyNone) ]) /\
  exists spy tqqq cash,
    get_allocation_only spy_weekly_close spy_50week_sma vix_close vix3m_close =
      Ok (spy, tqqq, cash) /\
    dict_get d "allocation" = Some (PyDict [
      ("spy", PyFloat spy); ("tqqq", PyFloat tqqq); ("cash", PyFloat cash) ]).
Proof.
  unfold get_signal, TrendMonsterSignal_init.
  destruct (generate (mkGenerator None) now spy_weekly_close spy_50week_sma vix_close
              vix3m_close None None) as [s | e] eqn:G; cbn [bind]; [| intros H; discriminate H].
  intros H. injection H as <-.
  apply generate_ok_inv in G as [Hz ->].
  rewrite get_allocation_only_eq, Hz.
  unfold to_dict.
  cbn [_current_allocation fst snd trend posture vix_level allocation vix_ratio spy_close
       spy_sma rebalance_required rebalance_instructions signal_generated_at
       weekly_data_as_of daily_data_as_of isoformat_or_None].
  destruct (as_percentages _) as [[spy tqqq] cash].
  split; [reflexivity | split; [reflexivity | split; [reflexivity |]]].
  exists spy, tqqq, cash. split; reflexivity.
Qed.

(** A signal built from a [MarketData] object carries the ratio its
    [vix_ratio] property computes, and the two fail together: on a zero
    VIX3M close, and only then. *)
Theorem generate_from_data_ratio
    (self : TrendMonsterSignal) (now : datetime) (data : MarketData datetime) :
  (forall s, generate_from_data self now data = Ok s ->
     MarketData_vix_ratio data = Ok (vix_ratio s)) /\
  ((exists e, generate_from_data self now data = Raise e) <->
   (exists e, MarketData_vix_ratio data = Raise e)).
Proof.
  unfold generate_from_data. split.
  - intros s G. apply generate_ok_inv in G as [Hz ->].
    unfold MarketData_vix_ratio, truediv.
    rewrite Hz. change (S754_zero false) with (of_Z 0). rewrite Hz. reflexivity.
  - unfold MarketData_vix_ratio, truediv.
    change (S754_zero false) with (of_Z 0).
    split.
    + intros [e G]. apply generate_raises_iff in G as [_ G]. rewrite G. eexists. reflexivity.
    + intros [e H]. exists ZeroDivisionError. apply generate_raises_iff.
      split; [reflexivity |].
      destruct (eqb (vix3m_close datetime data) (of_Z 0)); [reflexivity | discriminate H].
Qed.

End Convenience.

Lemma get_allocation_only_whole_witness :
  get_allocation_only (dec 45000 2) (dec 42000 2) (dec 155 1) (dec 182 1) =
    Ok (of_Z 50, of_Z 50, of_Z 0).
Proof.
  destruct (proj2 (proj2 (get_allocation_only_whole
                            (dec 45000 2) (dec 42000 2) (dec 155 1) (dec 182 1)))
              ltac:(vm_compute; reflexivity)) as [p Hp].
  rewrite Hp. revert Hp. vm_compute. intros H. injection H as <-. reflexivity.
Defined.

Lemma get_signal_fresh_witness :
  exists d,
    get_signal (fun _ : unit => "2025-01-03T16:00:00") tt
      (dec 45000 2) (dec 42000 2) (dec 155 1) (dec 182 1) = Ok d /\
    dict_get d "rebalance_required" = Some (PyBool true).
Proof.
  eexists. split; [vm_compute; reflexivity |].
  apply (get_signal_fresh (fun _ : unit => "2025-01-03T16:00:00") tt
           (dec 45000 2) (dec 42000 2) (dec 155 1) (dec 182 1)).
  vm_compute. reflexivity.
Defined.

(** * Errors and state of the generator *)

Section GeneratorState.

Context {datetime : Type}.

(** [generate] returns a signal exactly when the VIX3M close is not zero,
    and the division fault is the only error it can raise: the allocation
    constructor it calls never rejects a tabled allocation. *)
Theorem generate_only_division_error
    (self : TrendMonsterSignal) (now : datetime)
    (spy_weekly_close spy_50week_sma vix_close vix3m_close : float)
    (weekly_as_of daily_as_of : option datetime) :
  let r := generate self now spy_weekly_close spy_50week_sma vix_close vix3m_close
             weekly_as_of daily_as_of in
  ((exists s, r = Ok s) <-> eqb vix3m_close (of_Z 0) = false) /\
  (forall e, r = Raise e -> e = ZeroDivisionError).
Proof.
  intros r. subst r. split; [split |].
  - intros [s G]. apply generate_ok_inv in G as [Hz _]. exact Hz.
  - intros Hz.
    destruct (generate self now spy_weekly_close spy_50week_sma vix_close vix3m_close
                weekly_as_of daily_as_of) as [s | e] eqn:G; [exists s; reflexivity |].
    apply generate_raises_iff in G as [_ G]. rewrite G in Hz. discriminate Hz.
  - intros e G. apply generate_raises_iff in G as [-> _]. reflexivity.
Qed.

(** What [set_current_allocation] stores is what [generate] diffs against:
    after a successful call with weights [spy], [tqqq], [cash], whatever the
    object held before, the flag and the text of the next signal are those
    of the diff from exactly these weights to the signal's allocation. *)
Theorem generate_uses_set_allocation
    (self self' : TrendMonsterSignal) (spy tqqq cash : float) (now : datetime)
    (spy_weekly_close spy_50week_sma vix_close vix3m_close : float)
    (weekly_as_of daily_as_of : option datetime) (s : Signal datetime) :
  set_current_allocation self spy tqqq cash = Ok self' ->
  generate self' now spy_weekly_close spy_50week_sma vix_close vix3m_close
    weekly_as_of daily_as_of = Ok s ->
  (rebalance_required s, rebalance_instructions s) =
    generate_rebalance_instructions (mkAllocation spy tqqq cash) (allocation s) /\
  rebalance_instructions s <> set_allocation_placeholder.
Proof.
  unfold set_current_allocation, Allocation_new. intros Hset G.
  destruct (Allocation_post_init (mkAllocation spy tqqq cash)); cbn [bind] in Hset;
    [| discriminate Hset].
  injection Hset as <-.
  apply generate_ok_inv in G as [_ ->].
  cbn [_current_allocation rebalance_required rebalance_instructions allocation].
  split; [destruct (generate_rebalance_instructions _ _); reflexivity |].
  rewrite generate_rebalance_instructions_unfold.
  destruct (immaterial _ && immaterial _ && immaterial _); cbn [snd];
    [vm_compute; discriminate |].
  match goal with |- execute_prefix ++ ?t <> _ => generalize t end.
  intros t. vm_compute. discriminate.
Qed.

End GeneratorState.

Lemma generate_uses_set_allocation_witness :
  exists (self' : TrendMonsterSignal) (s : Signal unit),
    set_current_allocation (mkGenerator None) (dec 60 2) (dec 40 2) (dec 0 1) = Ok self' /\
    generate self' tt (dec 59500 2) (dec 54000 2) (dec 1450 2) (dec 1780 2) None None = Ok s /\
    (rebalance_required s, rebalance_instructions s) =
      (true, "Execute at next market open: SELL 10.0% SPY | BUY 10.0% TQQQ").
Proof.
  eexists. eexists.
  assert (Hset : set_current_allocation (mkGenerator None) (dec 60 2) (dec 40 2) (dec 0 1) =
                 Ok (mkGenerator (Some (mkAllocation (dec 60 2) (dec 40 2) (dec 0 1)))))
    by (vm_compute; reflexivity).
  split; [exact Hset |].
  split; [vm_compute; reflexivity |].
  rewrite (proj1 (generate_uses_set_allocation (datetime := unit) _ _ _ _ _ tt
                    (dec 59500 2) (dec 54000 2) (dec 1450 2) (dec 1780 2) None None _
                    Hset ltac:(vm_compute; reflexivity))).
  vm_compute. reflexivity.
Defined.

Lemma generate_from_data_ratio_witness :
  MarketData_vix_ratio
    (mkMarketData (datetime := unit) (dec 59500 2) (dec 54000 2) (dec 1450 2) (dec 1780 2)
       None None) = Ok (div (dec 1450 2) (dec 1780 2)).
Proof.
  apply (proj1 (generate_from_data_ratio (mkGenerator None) tt
                  (mkMarketData (dec 59500 2) (dec 54000 2) (dec 1450 2) (dec 1780 2)
                     None None))
           (mkSignal UPTREND AGGRESSIVE LOW (row 50 50 0) (div (dec 1450 2) (dec 1780 2))
              (dec 59500 2) (dec 54000 2) true set_allocation_placeholder tt None None)).
  vm_compute. reflexivity.
Defined.

Lemma generate_only_division_error_witness :
  exists s : Signal unit,
    generate (mkGenerator None) tt (dec 59500 2) (dec 54000 2) (dec 1450 2) (dec 1780 2)
      None None = Ok s.
Proof.
  apply (proj2 (proj1 (generate_only_division_error (mkGenerator None) tt
                         (dec 59500 2) (dec 54000 2) (dec 1450 2) (dec 1780 2) None None))).
  vm_compute. reflexivity.
Defined.
